(** * bob.ip.base: FaceEyesNorm (Python binding) and WeightedGaussian (header)

    A shallow embedding of the two source files of the repository:

    - [src/bob/ip/base/face_eyes_norm.cpp], the CPython binding of the
      [bob::ip::base::FaceEyesNorm] class (constructor dispatch, rich
      comparison, [extract]);
    - the header of [bob::ip::base::WeightedGaussian] (setters, the 2D and
      3D [filter] templates).

    The C++ class behind the binding and the out-of-line members of
    [WeightedGaussian] ([computeKernel], [filter_]) have no body in the
    sources at hand.  Where a statement needs them they are modelled from
    the specification, and every such definition says so. *)

From Stdlib Require Import Reals Lra.
From stdpp Require Import gmap strings list.

(** * Numbers *)

(** C [double].  Finite values are exact reals: rounding, overflow and the
    sign of zero are not tracked.  The special values follow IEEE-754. *)
Module Double.

Local Open Scope R_scope.

Inductive double :=
| Finite (r : R)
| Inf (negative : bool)
| NaN.

Definition zero : double := Finite 0.
Definition two : double := Finite 2.
Definition of_Z (z : Z) : double := Finite (IZR z).

Definition Rnegb (r : R) : bool := if Rlt_dec r 0 then true else false.
Definition Rzerob (r : R) : bool := if Req_dec_T r 0 then true else false.

Definition is_finite (x : double) : bool :=
  match x with Finite _ => true | _ => false end.

Definition is_zero (x : double) : bool :=
  match x with Finite r => Rzerob r | _ => false end.

(** [x == y] on doubles: a NaN is equal to nothing, itself included. *)
Definition eqb (x y : double) : bool :=
  match x, y with
  | Finite a, Finite b => if Req_dec_T a b then true else false
  | Inf s, Inf t => Bool.eqb s t
  | _, _ => false
  end.

(** [x <= y] on doubles. *)
Definition leb (x y : double) : bool :=
  match x, y with
  | NaN, _ | _, NaN => false
  | Finite a, Finite b => if Rle_dec a b then true else false
  | Inf true, _ => true
  | _, Inf false => true
  | _, _ => false
  end.

Definition neg (x : double) : double :=
  match x with
  | Finite r => Finite (- r)
  | Inf s => Inf (negb s)
  | NaN => NaN
  end.

Definition add (x y : double) : double :=
  match x, y with
  | NaN, _ | _, NaN => NaN
  | Finite a, Finite b => Finite (a + b)
  | Inf s, Inf t => if Bool.eqb s t then Inf s else NaN
  | Inf s, Finite _ | Finite _, Inf s => Inf s
  end.

Definition sub (x y : double) : double := add x (neg y).

Definition mul (x y : double) : double :=
  match x, y with
  | NaN, _ | _, NaN => NaN
  | Finite a, Finite b => Finite (a * b)
  | Inf s, Inf t => Inf (xorb s t)
  | Inf s, Finite b | Finite b, Inf s =>
      if Rzerob b then NaN else Inf (xorb s (Rnegb b))
  end.

Definition div (x y : double) : double :=
  match x, y with
  | NaN, _ | _, NaN => NaN
  | Finite a, Finite b =>
      if Rzerob b then (if Rzerob a then NaN else Inf (Rnegb a))
      else Finite (a / b)
  | Finite _, Inf _ => Finite 0
  | Inf s, Finite b => Inf (xorb s (Rnegb b))
  | Inf _, Inf _ => NaN
  end.

Definition sqrt (x : double) : double :=
  match x with
  | NaN => NaN
  | Inf s => if s then NaN else Inf false
  | Finite a => if Rnegb a then NaN else Finite (R_sqrt.sqrt a)
  end.

Definition exp (x : double) : double :=
  match x with
  | NaN => NaN
  | Inf s => if s then Finite 0 else Inf false
  | Finite a => Finite (Rtrigo_def.exp a)
  end.

(** [atan2] on the reals, the angle of the vector [(x, y)] in (-PI, PI]. *)
Definition Ratan2 (y x : R) : R :=
  if Rlt_dec 0 x then atan (y / x)
  else if Rlt_dec x 0 then
         (if Rlt_dec y 0 then atan (y / x) - PI else atan (y / x) + PI)
  else if Rlt_dec 0 y then PI / 2
  else if Rlt_dec y 0 then - (PI / 2)
  else 0.

(** C's [atan2(y, x)], with the special values of C99 Annex F. *)
Definition atan2 (y x : double) : double :=
  match y, x with
  | NaN, _ | _, NaN => NaN
  | Finite a, Finite b => Finite (Ratan2 a b)
  | Finite a, Inf s => if s then Finite (if Rnegb a then - PI else PI) else Finite 0
  | Inf s, Finite _ => Finite (if s then - (PI / 2) else PI / 2)
  | Inf s, Inf t =>
      let q := if t then 3 * PI / 4 else PI / 4 in
      Finite (if s then - q else q)
  end.

End Double.

Abbreviation double := Double.double.

(** [blitz::TinyVector<double,2>], a point [(y, x)] = (row, column). *)
Definition point : Type := double * double.

(** [blitz::TinyVector<int,2>], a size [(height, width)]. *)
Definition size2 : Type := Z * Z.

(** * Arrays *)

(** numpy's element type numbers, those that [bob.blitz] converts. *)
Inductive NPY_TYPES :=
| NPY_BOOL
| NPY_INT8 | NPY_INT16 | NPY_INT32 | NPY_INT64
| NPY_UINT8 | NPY_UINT16 | NPY_UINT32 | NPY_UINT64
| NPY_FLOAT32 | NPY_FLOAT64
| NPY_COMPLEX64 | NPY_COMPLEX128.

Global Instance NPY_TYPES_eq_dec : EqDecision NPY_TYPES.
Proof. solve_decision. Defined.

(** [PyBlitzArrayObject]: element type, shape and the elements in row-major
    order, each written as the double it casts to ([bool] as 0 and 1). *)
Record PyBlitzArrayObject := mkArray {
  type_num : NPY_TYPES;
  shape : list Z;
  data : list double
}.

Definition ndim (a : PyBlitzArrayObject) : nat := length (shape a).

(** Exceptions thrown by the C++ side (the error kinds of the
    specification, and anything else a collaborator may throw). *)
Inductive cxx_exception :=
| DegenerateLandmarksError
| ShapeMismatchError
| UnsupportedElementTypeError
| InvalidConfigurationError
| std_exception (what : string).

(** What a C++ call leaves behind: a value, or a thrown exception. *)
Definition cxx_result (A : Type) : Type := cxx_exception + A.

(** * The C++ class [bob::ip::base::FaceEyesNorm] *)

(** The binding holds an instance of the class in [self->cxx] and calls its
    constructors, its [operator==], its getters and its [extract].  The
    state below is the one the getters of the binding read; the members are
    modelled from the specification. *)
Module FaceEyesNorm.

(** The configured target (the attributes [crop_size], [eyes_distance],
    [eyes_angle] and [crop_offset], read and written through the binding)
    and the values applied by the latest normalisation ([last_angle],
    [last_scale] and [last_offset], read only). *)
Record t := mk {
  crop_size : size2;
  eyes_distance : double;
  eyes_angle : double;
  crop_offset : point;
  last_angle : double;
  last_scale : double;
  last_offset : point
}.

(** What the class hands to the [GeomNorm] it drives. *)
Record TransformParameters := mkParams {
  source_center : point;
  rotation_angle : double;
  scaling_factor : double;
  output_size : size2;
  output_offset : point
}.

(** Modelled from the spec: [|a - b|], the Euclidean length of the
    difference of two points. *)
Definition distance (a b : point) : double :=
  let dy := Double.sub a.1 b.1 in
  let dx := Double.sub a.2 b.2 in
  Double.sqrt (Double.add (Double.mul dy dy) (Double.mul dx dx)).

(** Modelled from the spec: the midpoint [(a + b) / 2]. *)
Definition midpoint (a b : point) : point :=
  (Double.div (Double.add a.1 b.1) Double.two,
   Double.div (Double.add a.2 b.2) Double.two).

(** Modelled from the spec: the angle of the line from [right] to [left]
    against the horizontal, [atan2(left.y - right.y, left.x - right.x)]. *)
Definition angle_to_horizontal (right left : point) : double :=
  Double.atan2 (Double.sub left.1 right.1) (Double.sub left.2 right.2).

(** Modelled from the spec: both components of a crop size are positive. *)
Definition valid_crop_size (s : size2) : bool :=
  bool_decide (0 < s.1)%Z && bool_decide (0 < s.2)%Z.

(** Modelled from the spec: the constructor
    [FaceEyesNorm(crop_size, eyes_distance, eyes_center)], whose body is not
    in the sources.  The target eyes lie on a horizontal line (angle 0),
    [eyes_distance] apart, around [eyes_center], which is the transformation
    centre of the output; a non-positive crop size is an
    [InvalidConfigurationError].  The specification leaves the last-applied
    values of a new instance open; they start at zero here. *)
Definition new_with_distance
    (size : size2) (dist : double) (center : point) : cxx_result t :=
  if valid_crop_size size then
    inr {| crop_size := size; eyes_distance := dist;
           eyes_angle := Double.zero; crop_offset := center;
           last_angle := Double.zero; last_scale := Double.zero;
           last_offset := (Double.zero, Double.zero) |}
  else inl InvalidConfigurationError.

(** Modelled from the spec: the constructor
    [FaceEyesNorm(crop_size, right_eye, left_eye)], whose body is not in the
    sources: [eyes_distance = |right - left|], the centre is the midpoint,
    [eyes_angle] the angle of the line through the two targets against the
    horizontal.  The angle is taken as [align] takes the observed one,
    from [right] to [left], so that an image whose landmarks already sit on
    the targets is rotated by nothing. *)
Definition new_with_eyes
    (size : size2) (right left : point) : cxx_result t :=
  if valid_crop_size size then
    inr {| crop_size := size; eyes_distance := distance right left;
           eyes_angle := angle_to_horizontal right left;
           crop_offset := midpoint right left;
           last_angle := Double.zero; last_scale := Double.zero;
           last_offset := (Double.zero, Double.zero) |}
  else inl InvalidConfigurationError.

(** Modelled from the spec: the copy constructor, a full duplicate of the
    state, last-applied values included. *)
Definition copy (other : t) : t := other.

Definition point_eqb (a b : point) : bool :=
  Double.eqb a.1 b.1 && Double.eqb a.2 b.2.

(** Modelled from the spec: [operator==], whose body is not in the sources.
    The configured crop size, eyes distance, eyes angle and crop offset are
    compared; the last-applied values are not. *)
Definition equal (a b : t) : bool :=
  bool_decide (crop_size a = crop_size b)
  && Double.eqb (eyes_distance a) (eyes_distance b)
  && Double.eqb (eyes_angle a) (eyes_angle b)
  && point_eqb (crop_offset a) (crop_offset b).

(** The configured values of two instances are pairwise equal, the doubles
    among them in the sense of [==]. *)
Definition configured_equal (a b : t) : Prop :=
  crop_size a = crop_size b
  ∧ Double.eqb (eyes_distance a) (eyes_distance b) = true
  ∧ Double.eqb (eyes_angle a) (eyes_angle b) = true
  ∧ Double.eqb (crop_offset a).1 (crop_offset b).1 = true
  ∧ Double.eqb (crop_offset a).2 (crop_offset b).2 = true.

(** The configured values of two instances are the same. *)
Definition same_configuration (a b : t) : Prop :=
  crop_size a = crop_size b
  ∧ eyes_distance a = eyes_distance b
  ∧ eyes_angle a = eyes_angle b
  ∧ crop_offset a = crop_offset b.

(** Modelled from the spec: the landmarks from which no scale can be
    derived, their observed distance [|left - right|] being zero or not
    finite. *)
Definition degenerate (right left : point) : bool :=
  let d := distance left right in
  Double.is_zero d || negb (Double.is_finite d).

Section Extract.

(** The [GeomNorm] collaborator: from the transform, the input (and its
    mask) and the output buffers it yields the elements of the output (and
    of its mask), or throws; when it throws nothing has been written, as
    the specification asks of every failure. *)
Variable GeomNorm_process :
  TransformParameters ->
  PyBlitzArrayObject -> option PyBlitzArrayObject ->
  PyBlitzArrayObject -> option PyBlitzArrayObject ->
  cxx_result (list double * option (list double)).

(** Modelled from the spec: the transform that [align] derives from two
    landmarks. *)
Definition derive (self : t) (right left : point) : TransformParameters :=
  let observed_distance := distance left right in
  let observed_angle := angle_to_horizontal right left in
  {| source_center := midpoint right left;
     rotation_angle := Double.sub (eyes_angle self) observed_angle;
     scaling_factor := Double.div (eyes_distance self) observed_distance;
     output_size := crop_size self;
     output_offset := crop_offset self |}.

(** Modelled from the spec: [extract] (the spec's [align]), whose body is
    not in the sources.  A zero or non-finite observed distance is a
    [DegenerateLandmarksError], raised before anything else happens.
    Otherwise the last-applied values are set to the derived transform and
    the resampling is delegated.  The result is the instance after the call
    and either the exception thrown or the new elements of the output and
    of the output mask. *)
Definition extract (self : t)
    (input : PyBlitzArrayObject) (input_mask : option PyBlitzArrayObject)
    (output : PyBlitzArrayObject) (output_mask : option PyBlitzArrayObject)
    (right left : point)
  : t * cxx_result (list double * option (list double)) :=
  if degenerate right left then (self, inl DegenerateLandmarksError)
  else
    let p := derive self right left in
    let self' :=
      {| crop_size := crop_size self; eyes_distance := eyes_distance self;
         eyes_angle := eyes_angle self; crop_offset := crop_offset self;
         last_angle := rotation_angle p; last_scale := scaling_factor p;
         last_offset := source_center p |} in
    (self', GeomNorm_process p input input_mask output output_mask).

End Extract.

End FaceEyesNorm.

(** * The CPython side *)

Module Py.

(** The Python values the binding meets.  An ndarray is a reference into
    the heap of arrays, so that an output buffer filled by a call is the
    caller's own. *)
#[warnings="-register-all"] Inductive PyObject :=
| PyNone
| PyNotImplemented
| PyBool (b : bool)
| PyLong (z : Z)
| PyFloat (d : double)
| PyString (s : string)
| PyTuple (items : list PyObject)
| PyList (items : list PyObject)
| PyArray (addr : nat)
| PyFaceEyesNormObject (cxx : FaceEyesNorm.t).

Abbreviation heap := (list PyBlitzArrayObject).

(** The Python error a call leaves behind when it returns [NULL] or [-1]:
    the one set by [PyArg_ParseTupleAndKeywords] (or by a converter it
    runs), a [TypeError] raised with [PyErr_Format] (the format text is
    kept), or a C++ exception that [CATCH] turned into a Python error. *)
Inductive PyErr :=
| ArgumentError
| PyExc_TypeError (format : string)
| CxxError (e : cxx_exception).

(** The result of a function returning [PyObject*]. *)
Inductive PyReturn :=
| Py_NULL (err : PyErr)
| Py_Return (o : PyObject).

Definition Py_RETURN_NONE : PyReturn := Py_Return PyNone.
Definition Py_RETURN_TRUE : PyReturn := Py_Return (PyBool true).
Definition Py_RETURN_FALSE : PyReturn := Py_Return (PyBool false).

(** The operator codes of [tp_richcompare]. *)
Inductive compare_op := Py_LT | Py_LE | Py_EQ | Py_NE | Py_GT | Py_GE.

(** ** Argument parsing *)

(** The integer that [PyLong_AsDouble] makes a double of: [z] itself when
    it has at most 53 bits, the significand of a double, and otherwise [z]
    rounded to its 53 leading bits, a tie going to the even neighbour. *)
Definition round_half_even (z : Z) : Z :=
  let a := Z.abs z in
  let s := (Z.log2 a + 1 - 53)%Z in
  if (s <=? 0)%Z then z
  else
    let q := Z.shiftr a s in
    let r := Z.land a (Z.ones s) in
    let half := Z.shiftl 1 (s - 1) in
    let up := (half <? r)%Z || ((r =? half)%Z && Z.odd q) in
    (Z.sgn z * Z.shiftl (if up then q + 1 else q) s)%Z.

(** [PyLong_AsDouble]: an integer whose rounded value needs an exponent
    above [DBL_MAX_EXP] = 1024 is an [OverflowError]. *)
Definition PyLong_AsDouble (z : Z) : option double :=
  let r := round_half_even z in
  if (Z.log2 (Z.abs r) <? 1024)%Z then Some (Double.of_Z r) else None.

(** [PyFloat_AsDouble], the unit [d]: a float as it is, an integer through
    [PyLong_AsDouble]; any other of the objects at hand is an error.  (An
    object that converts through a [__float__] of its own, as an ndarray
    of one element does, is not covered.) *)
Definition as_double (o : PyObject) : option double :=
  match o with
  | PyFloat d => Some d
  | PyLong z => PyLong_AsDouble z
  | PyBool b => Some (Double.of_Z (if b then 1 else 0))
  | _ => None
  end.

(** The unit [i]: a Python integer that fits a C [int]. *)
Definition as_int (o : PyObject) : option Z :=
  match o with
  | PyLong z =>
      if bool_decide (- 2 ^ 31 <= z < 2 ^ 31)%Z then Some z else None
  | PyBool b => Some (if b then 1 else 0)%Z
  | _ => None
  end.

(** [PySequence_Check]. *)
Definition PySequence_Check (o : PyObject) : bool :=
  match o with
  | PyTuple _ | PyList _ | PyString _ | PyArray _ => true
  | _ => false
  end.

(** The items of the sequence given for a parenthesised unit.  Tuples and
    lists are covered; the items of a string or of an ndarray are not
    modelled. *)
Definition sequence_items (o : PyObject) : option (list PyObject) :=
  match o with
  | PyTuple l | PyList l => Some l
  | _ => None
  end.

(** The unit [(dd)]. *)
Definition as_dd (o : PyObject) : option point :=
  l ← sequence_items o;
  match l with
  | [a; b] => y ← as_double a; x ← as_double b; Some (y, x)
  | _ => None
  end.

(** The unit [(ii)]. *)
Definition as_ii (o : PyObject) : option size2 :=
  l ← sequence_items o;
  match l with
  | [a; b] => y ← as_int a; x ← as_int b; Some (y, x)
  | _ => None
  end.

(** [O&] with [PyBlitzArray_Converter] or [PyBlitzArray_OutputConverter]
    (both of [bob.blitz]), on ndarray objects: the array behind the
    reference, together with its address. *)
Definition PyBlitzArray_Converter (h : heap) (o : PyObject)
  : option (nat * PyBlitzArrayObject) :=
  match o with
  | PyArray addr => a ← h !! addr; Some (addr, a)
  | _ => None
  end.

Definition PyBlitzArray_OutputConverter := PyBlitzArray_Converter.

(** [PyBobIpBaseFaceEyesNorm_Check], [PyObject_IsInstance] against the
    type of the binding. *)
Definition PyBobIpBaseFaceEyesNorm_Check (o : PyObject) : bool :=
  match o with PyFaceEyesNormObject _ => true | _ => false end.

(** [O!] with [PyBobIpBaseFaceEyesNormType]. *)
Definition as_FaceEyesNorm (o : PyObject) : option FaceEyesNorm.t :=
  match o with PyFaceEyesNormObject cxx => Some cxx | _ => None end.

(** How [PyArg_ParseTupleAndKeywords] finds the object of each parameter
    of [kwlist] (all of them required): the positional arguments come
    first, the remaining ones are taken from [kwargs] by name.  It fails when
    there are too many arguments, when a parameter is given twice or not at
    all, and when [kwargs] holds a name that is not expected. *)
Fixpoint bind_arguments (kwlist : list string)
    (args : list PyObject) (kwargs : gmap string PyObject)
  : option (list PyObject) :=
  match kwlist with
  | [] =>
      match args with
      | [] => if decide (size kwargs = 0) then Some [] else None
      | _ :: _ => None
      end
  | k :: kwlist' =>
      match args with
      | a :: args' =>
          match kwargs !! k with
          | Some _ => None
          | None => cons a <$> bind_arguments kwlist' args' kwargs
          end
      | [] =>
          match kwargs !! k with
          | Some v => cons v <$> bind_arguments kwlist' [] (delete k kwargs)
          | None => None
          end
      end
  end.

(** [(args?PyTuple_Size(args):0) + (kwargs?PyDict_Size(kwargs):0)]; an
    absent [args] or [kwargs] is the empty one. *)
Definition count_arguments
    (args : list PyObject) (kwargs : gmap string PyObject) : nat :=
  length args + size kwargs.

End Py.

(** * The binding of FaceEyesNorm: [face_eyes_norm.cpp] *)

Module Binding.

Import Py.

Definition kwlist_init1 : list string := ["crop_size"; "eyes_distance"; "eyes_center"].
Definition kwlist_init2 : list string := ["crop_size"; "right_eye"; "left_eye"].
Definition kwlist_init3 : list string := ["other"].

(** [CATCH(message, ret)]: a C++ exception leaves the function with the
    error return and a Python error set. *)
Definition CATCH {A : Type} (r : cxx_result A) : PyErr + A :=
  match r with
  | inl e => inl (CxxError e)
  | inr a => inr a
  end.

Section Init.

(** [PyList_GET_ITEM(args, 1)] of line 69: the accessor of lists, applied
    there to the tuple of positional arguments.  What it reads from a tuple
    depends on the memory layout of the two kinds of object and is left
    open; a call by keyword never gets to it. *)
Variable PyList_GET_ITEM : list PyObject -> nat -> PyObject.

(** [PyBobIpBaseFaceEyesNorm_init]: the new value of [self->cxx] (return
    code 0), or the error left behind (return code -1). *)
Definition PyBobIpBaseFaceEyesNorm_init
    (args : list PyObject) (kwargs : gmap string PyObject)
  : PyErr + FaceEyesNorm.t :=
  match count_arguments args kwargs with
  | 1 =>
      (* "O!" *)
      match bind_arguments kwlist_init3 args kwargs with
      | Some [other] =>
          match as_FaceEyesNorm other with
          | Some faceEyesNorm => inr (FaceEyesNorm.copy faceEyesNorm)
          | None => inl ArgumentError
          end
      | _ => inl ArgumentError
      end
  | 3 =>
      if (bool_decide (1 < length args)
          && PySequence_Check (PyList_GET_ITEM args 1))
         || bool_decide (is_Some (kwargs !! "right_eye"))
      then
        (* with two eyes, "(ii)(dd)(dd)" *)
        match bind_arguments kwlist_init2 args kwargs with
        | Some [o1; o2; o3] =>
            match as_ii o1, as_dd o2, as_dd o3 with
            | Some size, Some right_eye, Some left_eye =>
                CATCH (FaceEyesNorm.new_with_eyes size right_eye left_eye)
            | _, _, _ => inl ArgumentError
            end
        | _ => inl ArgumentError
        end
      else
        (* with eye distance, "(ii)d(dd)" *)
        match bind_arguments kwlist_init1 args kwargs with
        | Some [o1; o2; o3] =>
            match as_ii o1, as_double o2, as_dd o3 with
            | Some size, Some dist, Some center =>
                CATCH (FaceEyesNorm.new_with_distance size dist center)
            | _, _, _ => inl ArgumentError
            end
        | _ => inl ArgumentError
        end
  | _ => inl (PyExc_TypeError "`%s' got an unsupported number of parameters")
  end.

End Init.

(** [PyBobIpBaseFaceEyesNorm_RichCompare]. *)
Definition PyBobIpBaseFaceEyesNorm_RichCompare
    (self : FaceEyesNorm.t) (other : PyObject) (op : compare_op) : PyReturn :=
  if negb (PyBobIpBaseFaceEyesNorm_Check other) then
    Py_NULL (PyExc_TypeError "cannot compare `%s' with `%s'")
  else
    match as_FaceEyesNorm other with
    | Some other_ =>
        match op with
        | Py_EQ =>
            if FaceEyesNorm.equal self other_
            then Py_RETURN_TRUE else Py_RETURN_FALSE
        | Py_NE =>
            if FaceEyesNorm.equal self other_
            then Py_RETURN_FALSE else Py_RETURN_TRUE
        | _ => Py_Return PyNotImplemented
        end
    | None => Py_NULL (PyExc_TypeError "cannot compare `%s' with `%s'")
    end.

(** ** [extract] *)

Definition kwlist1 : list string := ["input"; "right_eye"; "left_eye"].
Definition kwlist2 : list string := ["input"; "output"; "right_eye"; "left_eye"].
Definition kwlist3 : list string :=
  ["input"; "input_mask"; "output"; "output_mask"; "right_eye"; "left_eye"].

(** The local variables that the parsing fills: arrays with their address,
    absent when left at 0. *)
Record extract_locals := mkLocals {
  input : nat * PyBlitzArrayObject;
  input_mask : option (nat * PyBlitzArrayObject);
  output : option (nat * PyBlitzArrayObject);
  output_mask : option (nat * PyBlitzArrayObject);
  right_eye : point;
  left_eye : point
}.

(** Every array of the locals is the one the heap holds at its address. *)
Definition locals_in_heap (h : heap) (a : extract_locals) : Prop :=
  h !! (input a).1 = Some (input a).2
  ∧ (∀ o, output a = Some o -> h !! o.1 = Some o.2)
  ∧ (∀ m, input_mask a = Some m -> h !! m.1 = Some m.2)
  ∧ (∀ m, output_mask a = Some m -> h !! m.1 = Some m.2).

(** The checks of lines 415-426 on a given output buffer: 2D and float64. *)
Definition output_accepted (a : extract_locals) : bool :=
  match output a with
  | Some o => bool_decide (ndim o.2 = 2) && bool_decide (type_num o.2 = NPY_FLOAT64)
  | None => true
  end.

(** The checks of lines 435-446 on a pair of masks: 2D and boolean. *)
Definition masks_accepted (a : extract_locals) : bool :=
  match input_mask a, output_mask a with
  | Some im, Some om =>
      bool_decide (ndim im.2 = 2) && bool_decide (ndim om.2 = 2)
      && bool_decide (type_num im.2 = NPY_BOOL)
      && bool_decide (type_num om.2 = NPY_BOOL)
  | _, _ => true
  end.

Definition buffers_accepted (a : extract_locals) : bool :=
  output_accepted a && masks_accepted a.

(** "O&(dd)(dd)" over [kwlist1]. *)
Definition parse1 (h : heap) (args : list PyObject)
    (kwargs : gmap string PyObject) : option extract_locals :=
  match bind_arguments kwlist1 args kwargs with
  | Some [o1; o2; o3] =>
      i ← PyBlitzArray_Converter h o1;
      r ← as_dd o2;
      l ← as_dd o3;
      Some (mkLocals i None None None r l)
  | _ => None
  end.

(** "O&O&(dd)(dd)" over [kwlist2]. *)
Definition parse2 (h : heap) (args : list PyObject)
    (kwargs : gmap string PyObject) : option extract_locals :=
  match bind_arguments kwlist2 args kwargs with
  | Some [o1; o2; o3; o4] =>
      i ← PyBlitzArray_Converter h o1;
      o ← PyBlitzArray_OutputConverter h o2;
      r ← as_dd o3;
      l ← as_dd o4;
      Some (mkLocals i None (Some o) None r l)
  | _ => None
  end.

(** "O&O&O&O&(dd)(dd)" over [kwlist3]. *)
Definition parse3 (h : heap) (args : list PyObject)
    (kwargs : gmap string PyObject) : option extract_locals :=
  match bind_arguments kwlist3 args kwargs with
  | Some [o1; o2; o3; o4; o5; o6] =>
      i ← PyBlitzArray_Converter h o1;
      im ← PyBlitzArray_Converter h o2;
      o ← PyBlitzArray_OutputConverter h o3;
      om ← PyBlitzArray_OutputConverter h o4;
      r ← as_dd o5;
      l ← as_dd o6;
      Some (mkLocals i (Some im) (Some o) (Some om) r l)
  | _ => None
  end.

(** The [switch (nargs)] of [extract], lines 375-404.  [case 3] has no
    [break]: once its own parse went through, control runs on into the
    parse of [case 4], which fills the locals again. *)
Definition parse_arguments (h : heap) (args : list PyObject)
    (kwargs : gmap string PyObject) : PyErr + extract_locals :=
  match count_arguments args kwargs with
  | 3 =>
      match parse1 h args kwargs with
      | None => inl ArgumentError
      | Some _ =>
          match parse2 h args kwargs with
          | None => inl ArgumentError
          | Some a => inr a
          end
      end
  | 4 =>
      match parse2 h args kwargs with
      | None => inl ArgumentError
      | Some a => inr a
      end
  | 6 =>
      match parse3 h args kwargs with
      | None => inl ArgumentError
      | Some a => inr a
      end
  | _ => inl (PyExc_TypeError "`%s' extract called with wrong number of parameters")
  end.

(** [PyBlitzArray_SimpleNew(type, 2, n)]; the elements of a new array are
    not initialised, they read as zero here. *)
Definition PyBlitzArray_SimpleNew (t : NPY_TYPES) (n : size2)
  : PyBlitzArrayObject :=
  mkArray t [n.1; n.2] (replicate (Z.to_nat (n.1 * n.2)) Double.zero).

(** The input element types that the final [switch] dispatches. *)
Definition supported (t : NPY_TYPES) : bool :=
  match t with
  | NPY_UINT8 | NPY_UINT16 | NPY_FLOAT64 => true
  | _ => false
  end.

(** Writes the new elements of an array through its reference. *)
Definition store (h : heap) (dst : nat * PyBlitzArrayObject)
    (elements : list double) : heap :=
  <[dst.1 := mkArray (type_num dst.2) (shape dst.2) elements]> h.

Section Extract.

Variable GeomNorm_process :
  FaceEyesNorm.TransformParameters ->
  PyBlitzArrayObject -> option PyBlitzArrayObject ->
  PyBlitzArrayObject -> option PyBlitzArrayObject ->
  cxx_result (list double * option (list double)).

(** [extract_inner<T>]: the masked call when both masks are there, the
    plain one otherwise.  The output arrays are views of the caller's
    arrays, what the C++ call writes lands in the heap. *)
Definition extract_inner (h : heap) (self : FaceEyesNorm.t)
    (input : nat * PyBlitzArrayObject)
    (input_mask : option (nat * PyBlitzArrayObject))
    (output : nat * PyBlitzArrayObject)
    (output_mask : option (nat * PyBlitzArrayObject))
    (right left : point)
  : FaceEyesNorm.t * cxx_result heap :=
  match input_mask, output_mask with
  | Some im, Some om =>
      match FaceEyesNorm.extract GeomNorm_process self
              input.2 (Some im.2) output.2 (Some om.2) right left with
      | (self', inl e) => (self', inl e)
      | (self', inr (elements, mask)) =>
          let h' := store h output elements in
          (self', inr (match mask with
                       | Some m => store h' om m
                       | None => h'
                       end))
      end
  | _, _ =>
      match FaceEyesNorm.extract GeomNorm_process self
              input.2 None output.2 None right left with
      | (self', inl e) => (self', inl e)
      | (self', inr (elements, _)) => (self', inr (store h output elements))
      end
  end.

(** The body of [extract] from line 406 on, with the locals as the
    [switch] left them. *)
Definition extract_body (h : heap) (self : FaceEyesNorm.t)
    (nargs : nat) (a : extract_locals)
  : PyReturn * heap * FaceEyesNorm.t :=
  if bool_decide (ndim (input a).2 ≠ 2) then
    (Py_NULL (PyExc_TypeError "'%s' only 2D facial images can be normalized"), h, self)
  else
    let checked : PyErr + (heap * (nat * PyBlitzArrayObject)) :=
      match output a with
      | Some o =>
          if bool_decide (ndim o.2 ≠ 2) then
            inl (PyExc_TypeError "'%s' the 'output' array must be 2D")
          else if bool_decide (type_num o.2 ≠ NPY_FLOAT64) then
            inl (PyExc_TypeError "'%s': the 'output' array must be of type float64")
          else inr (h, o)
      | None =>
          (* create output in the desired dimensions *)
          let new := PyBlitzArray_SimpleNew NPY_FLOAT64 (FaceEyesNorm.crop_size self) in
          inr (h ++ [new], (length h, new))
      end in
    match checked with
    | inl err => (Py_NULL err, h, self)
    | inr (h1, out) =>
        let masks_error : option PyErr :=
          match input_mask a, output_mask a with
          | Some im, Some om =>
              if bool_decide (ndim im.2 ≠ 2) || bool_decide (ndim om.2 ≠ 2) then
                Some (PyExc_TypeError "`%s' masks must have the same shape as the input or output matrix")
              else if bool_decide (type_num im.2 ≠ NPY_BOOL)
                      || bool_decide (type_num om.2 ≠ NPY_BOOL) then
                Some (PyExc_TypeError "`%s' masks must be of boolean type")
              else None
          | _, _ => None
          end in
        match masks_error with
        | Some err => (Py_NULL err, h, self)
        | None =>
            (* finally, process the data *)
            if supported (type_num (input a).2) then
              match extract_inner h1 self (input a) (input_mask a) out
                      (output_mask a) (right_eye a) (left_eye a) with
              | (self', inl e) => (Py_NULL (CxxError e), h, self')
              | (self', inr h2) =>
                  if bool_decide (nargs = 3) then
                    (Py_Return (PyArray out.1), h2, self')
                  else (Py_RETURN_NONE, h2, self')
              end
            else
              (Py_NULL (PyExc_TypeError "`%s' input array of type %s are currently not supported"), h, self)
        end
    end.

(** [PyBobIpBaseFaceEyesNorm_extract] (also the [__call__] of the type):
    what is returned, the heap of arrays and the instance after the call. *)
Definition PyBobIpBaseFaceEyesNorm_extract (h : heap) (self : FaceEyesNorm.t)
    (args : list PyObject) (kwargs : gmap string PyObject)
  : PyReturn * heap * FaceEyesNorm.t :=
  match parse_arguments h args kwargs with
  | inl err => (Py_NULL err, h, self)
  | inr a => extract_body h self (count_arguments args kwargs) a
  end.

End Extract.

End Binding.

(** * The class [bob::ip::base::WeightedGaussian] *)

Module WeightedGaussian.

(** [bob::sp::Extrapolation::BorderType]. *)
Inductive BorderType := Zero | NearestNeighbour | Circular | Mirror.

(** [blitz::Array<T,2>] as the list of its rows, [blitz::Array<T,3>] as the
    list of its planes. *)
Abbreviation Array2 T := (list (list T)).
Abbreviation Array3 T := (list (list (list T))).

Record t := mk {
  m_radius_y : Z;      (* size_t *)
  m_radius_x : Z;      (* size_t *)
  m_sigma_y : double;
  m_sigma_x : double;
  m_conv_border : BorderType;
  m_kernel : Array2 double;
  m_kernel_weighted : Array2 double;
  m_src_extra : Array2 double;
  m_src_integral : Array2 double
}.

(** The conversion of an [int] to [size_t]. *)
Definition to_size_t (z : Z) : Z := (z mod 2 ^ 64)%Z.

(** ** The kernel *)

(** Modelled from the spec: the offsets [-radius .. radius]. *)
Definition offsets (radius : Z) : list Z :=
  seqZ (- radius) (2 * radius + 1).

(** Modelled from the spec: the Gaussian
    [exp(-(i^2/(2 sigma_y^2) + j^2/(2 sigma_x^2)))]. *)
Definition gaussian (sigma_y sigma_x : double) (i j : Z) : double :=
  Double.exp (Double.neg (Double.add
    (Double.div (Double.of_Z (i * i))
       (Double.mul Double.two (Double.mul sigma_y sigma_y)))
    (Double.div (Double.of_Z (j * j))
       (Double.mul Double.two (Double.mul sigma_x sigma_x))))).

Definition sum (l : list double) : double := foldr Double.add Double.zero l.

(** The sum of all the entries of a grid. *)
Definition grid_sum (k : Array2 double) : double := sum (concat k).

(** Modelled from the spec: the base kernel, the Gaussian over the grid of
    offsets divided by the sum of the grid. *)
Definition gaussian_kernel
    (radius_y radius_x : Z) (sigma_y sigma_x : double) : Array2 double :=
  let raw := (λ i, gaussian sigma_y sigma_x i <$> offsets radius_x)
               <$> offsets radius_y in
  let total := grid_sum raw in
  (λ row, (λ v, Double.div v total) <$> row) <$> raw.

(** The Gaussian and the sum over the reals, to state what a kernel of
    finite entries holds. *)
Definition gaussianR (sigma_y sigma_x : R) (i j : Z) : R :=
  Rtrigo_def.exp (- (IZR (i * i) / (2 * (sigma_y * sigma_y))
                     + IZR (j * j) / (2 * (sigma_x * sigma_x))))%R.

Definition sumR (l : list R) : R := foldr Rplus 0%R l.

(** The Gaussian over the grid of offsets, in the reals. *)
Definition rawR (radius_y radius_x : Z) (sy sx : R) : list (list R) :=
  (λ i, gaussianR sy sx i <$> offsets radius_x) <$> offsets radius_y.

(** The entry of a kernel at the offset [(i, j)] from its centre. *)
Definition entry (k : Array2 double) (radius_y radius_x i j : Z)
  : option double :=
  row ← k !! Z.to_nat (i + radius_y); row !! Z.to_nat (j + radius_x).

(** Modelled from the spec: [computeKernel], declared in the header and
    defined elsewhere.  It builds the base kernel from the four parameters
    of the instance and retains it. *)
Definition computeKernel (self : t) : t :=
  {| m_radius_y := m_radius_y self; m_radius_x := m_radius_x self;
     m_sigma_y := m_sigma_y self; m_sigma_x := m_sigma_x self;
     m_conv_border := m_conv_border self;
     m_kernel := gaussian_kernel (m_radius_y self) (m_radius_x self)
                   (m_sigma_y self) (m_sigma_x self);
     m_kernel_weighted := m_kernel_weighted self;
     m_src_extra := m_src_extra self;
     m_src_integral := m_src_integral self |}.

(** ** Getters *)

Definition getRadiusY (self : t) : Z := m_radius_y self.
Definition getRadiusX (self : t) : Z := m_radius_x self.
Definition getSigmaY (self : t) : double := m_sigma_y self.
Definition getSigmaX (self : t) : double := m_sigma_x self.
Definition getConvBorder (self : t) : BorderType := m_conv_border self.
Definition getUnweightedKernel (self : t) : Array2 double := m_kernel self.

(** The four parameters that the kernel is a function of. *)
Definition parameters (self : t) : Z * Z * double * double :=
  (m_radius_y self, m_radius_x self, m_sigma_y self, m_sigma_x self).

(** The retained kernel is the one of the current parameters. *)
Definition kernel_up_to_date (self : t) : Prop :=
  m_kernel self
  = gaussian_kernel (m_radius_y self) (m_radius_x self)
      (m_sigma_y self) (m_sigma_x self).

(** ** Setters *)

Definition with_radius (self : t) (radius_y radius_x : Z) : t :=
  {| m_radius_y := radius_y; m_radius_x := radius_x;
     m_sigma_y := m_sigma_y self; m_sigma_x := m_sigma_x self;
     m_conv_border := m_conv_border self; m_kernel := m_kernel self;
     m_kernel_weighted := m_kernel_weighted self;
     m_src_extra := m_src_extra self;
     m_src_integral := m_src_integral self |}.

Definition with_sigma (self : t) (sigma_y sigma_x : double) : t :=
  {| m_radius_y := m_radius_y self; m_radius_x := m_radius_x self;
     m_sigma_y := sigma_y; m_sigma_x := sigma_x;
     m_conv_border := m_conv_border self; m_kernel := m_kernel self;
     m_kernel_weighted := m_kernel_weighted self;
     m_src_extra := m_src_extra self;
     m_src_integral := m_src_integral self |}.

Definition setRadiusY (self : t) (radius_y : Z) : t :=
  computeKernel (with_radius self radius_y (m_radius_x self)).

Definition setRadiusX (self : t) (radius_x : Z) : t :=
  computeKernel (with_radius self (m_radius_y self) radius_x).

(** [setRadius] takes a [TinyVector<int,2>]; each component is converted
    to [size_t] by the assignment. *)
Definition setRadius (self : t) (radius : size2) : t :=
  computeKernel (with_radius self (to_size_t radius.1) (to_size_t radius.2)).

Definition setSigmaY (self : t) (sigma_y : double) : t :=
  computeKernel (with_sigma self sigma_y (m_sigma_x self)).

Definition setSigmaX (self : t) (sigma_x : double) : t :=
  computeKernel (with_sigma self (m_sigma_y self) sigma_x).

Definition setSigma (self : t) (sigma : point) : t :=
  computeKernel (with_sigma self sigma.1 sigma.2).

Definition setConvBorder (self : t) (border_type : BorderType) : t :=
  {| m_radius_y := m_radius_y self; m_radius_x := m_radius_x self;
     m_sigma_y := m_sigma_y self; m_sigma_x := m_sigma_x self;
     m_conv_border := border_type; m_kernel := m_kernel self;
     m_kernel_weighted := m_kernel_weighted self;
     m_src_extra := m_src_extra self;
     m_src_integral := m_src_integral self |}.

(** ** Filtering *)

(** [bob::core::array::assertSameDimensionLength]. *)
Definition assertSameDimensionLength (d1 d2 : nat) : option cxx_exception :=
  if decide (d1 = d2) then None else Some ShapeMismatchError.

Section Filter.

(** The element type of the input and [bob::core::array::cast<double>] on
    one element. *)
Context {T : Type}.
Variable cast : T -> double.

(** [filter_], declared in the header and defined elsewhere: from the
    instance, the source and the destination as it is, the instance (its
    work arrays) and the destination after the call, and the exception
    thrown if any. *)
Variable filter_ :
  t -> Array2 double -> Array2 double -> t * Array2 double * option cxx_exception.

(** [filter<T>] on 2D arrays: casts the input to double, then [filter_]. *)
Definition filter (self : t) (src : Array2 T) (dst : Array2 double)
  : t * Array2 double * option cxx_exception :=
  let src_d : Array2 double := (λ row : list T, cast <$> row) <$> src in
  filter_ self src_d dst.

(** The loop of the 3D [filter]: [n] planes to go from plane [p] on.
    [dst_slice] is a view of [dst], so what [filter] writes is plane [p] of
    [dst]. *)
Fixpoint filter3_loop (n p : nat) (self : t)
    (src : Array3 T) (dst : Array3 double)
  : t * Array3 double * option cxx_exception :=
  match n with
  | 0 => (self, dst, None)
  | S n' =>
      let src_slice := default [] (src !! p) in
      let dst_slice := default [] (dst !! p) in
      match filter self src_slice dst_slice with
      | (self', dst_slice', Some e) => (self', <[p := dst_slice']> dst, Some e)
      | (self', dst_slice', None) =>
          filter3_loop n' (S p) self' src (<[p := dst_slice']> dst)
      end
  end.

(** [filter<T>] on 3D arrays. *)
Definition filter3 (self : t) (src : Array3 T) (dst : Array3 double)
  : t * Array3 double * option cxx_exception :=
  match assertSameDimensionLength (length src) (length dst) with
  | Some e => (self, dst, Some e)
  | None => filter3_loop (length dst) 0 self src dst
  end.

(** What the specification asks of the 3D overload, in its own words: the
    2D filter applied to each plane in turn, each result being the plane of
    the output. *)
Fixpoint filter_each_plane (self : t)
    (src : Array3 T) (dst : Array3 double)
  : t * Array3 double * option cxx_exception :=
  match src, dst with
  | s :: src', d :: dst' =>
      match filter self s d with
      | (self', d', Some e) => (self', d' :: dst', Some e)
      | (self', d', None) =>
          match filter_each_plane self' src' dst' with
          | (self'', dst'', e) => (self'', d' :: dst'', e)
          end
      end
  | _, _ => (self, dst, None)
  end.

End Filter.

End WeightedGaussian.

(** * Sample inputs *)

Module Samples.

Import Py.

(** A resampler that leaves the output as it is. *)
Definition keep_output
    (p : FaceEyesNorm.TransformParameters)
    (input : PyBlitzArrayObject) (input_mask : option PyBlitzArrayObject)
    (output : PyBlitzArrayObject) (output_mask : option PyBlitzArrayObject)
  : cxx_result (list double * option (list double)) :=
  inr (data output, data <$> output_mask).

Definition pixels (n : nat) : list double := replicate n Double.zero.

(** A 2x2 image of each kind and a 2x2 float64 output buffer. *)
Definition image_uint8 : PyBlitzArrayObject := mkArray NPY_UINT8 [2; 2]%Z (pixels 4).
Definition image_int32 : PyBlitzArrayObject := mkArray NPY_INT32 [2; 2]%Z (pixels 4).
Definition buffer_float64 : PyBlitzArrayObject := mkArray NPY_FLOAT64 [2; 2]%Z (pixels 4).

Definition heap_uint8 : heap := [image_uint8; buffer_float64].
Definition heap_int32 : heap := [image_int32; buffer_float64].

Definition pair (y x : Z) : PyObject := PyTuple [PyLong y; PyLong x].

(** The item of a tuple, for [PyList_GET_ITEM]. *)
Definition item (args : list PyObject) (i : nat) : PyObject :=
  default PyNone (args !! i).

(** An instance with a 2x2 crop and the targets one pixel apart. *)
Definition face : FaceEyesNorm.t :=
  FaceEyesNorm.mk (2, 2)%Z (Double.of_Z 1) Double.zero
    (Double.zero, Double.zero) Double.zero Double.zero
    (Double.zero, Double.zero).

(** The default filter: radius (1, 1), sigma (sqrt 2, sqrt 2), mirrored
    border. *)
Definition sqrt2 : double := Double.Finite (sqrt 2).

Definition gaussian_default : WeightedGaussian.t :=
  WeightedGaussian.computeKernel
    (WeightedGaussian.mk 1 1 sqrt2 sqrt2 WeightedGaussian.Mirror [] [] [] []).

(** A 2D filter that copies the source into the destination. *)
Definition copy_filter (self : WeightedGaussian.t)
    (src dst : list (list double))
  : WeightedGaussian.t * list (list double) * option cxx_exception :=
  (self, src, None).

End Samples.

(** * The attributes of the binding *)

(** The getters and setters of [face_eyes_norm.cpp], lines 135-264. *)
Module Attributes.

Import Py.

(** The error a setter leaves behind when it returns [-1]: the one
    [PyFloat_AsDouble] set, a [RuntimeError] raised with [PyErr_Format], or
    a C++ exception that [CATCH] turned into a Python error. *)
Inductive SetterError :=
| FloatError
| PyExc_RuntimeError (format : string)
| SetterCxxError (e : cxx_exception).

(** ** Getters: [Py_BuildValue] on what the C++ getter returns *)

Definition PyBobIpBaseFaceEyesNorm_getEyesDistance (self : FaceEyesNorm.t)
  : PyObject := PyFloat (FaceEyesNorm.eyes_distance self).

Definition PyBobIpBaseFaceEyesNorm_getEyesAngle (self : FaceEyesNorm.t)
  : PyObject := PyFloat (FaceEyesNorm.eyes_angle self).

(** A C [int]: the value of its 32 bits. *)
Definition C_int (z : Z) : Z := ((z + 2 ^ 31) mod 2 ^ 32 - 2 ^ 31)%Z.

(** "(ii)", which reads two C [int]s. *)
Definition PyBobIpBaseFaceEyesNorm_getCropSize (self : FaceEyesNorm.t)
  : PyObject :=
  let r := FaceEyesNorm.crop_size self in
  PyTuple [PyLong (C_int r.1); PyLong (C_int r.2)].

(** "(dd)" *)
Definition PyBobIpBaseFaceEyesNorm_getCropOffset (self : FaceEyesNorm.t)
  : PyObject :=
  let r := FaceEyesNorm.crop_offset self in PyTuple [PyFloat r.1; PyFloat r.2].

Definition PyBobIpBaseFaceEyesNorm_getLastAngle (self : FaceEyesNorm.t)
  : PyObject := PyFloat (FaceEyesNorm.last_angle self).

Definition PyBobIpBaseFaceEyesNorm_getLastScale (self : FaceEyesNorm.t)
  : PyObject := PyFloat (FaceEyesNorm.last_scale self).

Definition PyBobIpBaseFaceEyesNorm_getLastOffset (self : FaceEyesNorm.t)
  : PyObject :=
  let r := FaceEyesNorm.last_offset self in PyTuple [PyFloat r.1; PyFloat r.2].

(** ** Setters *)

(** The ndarray objects.  What [PyFloat_AsDouble] makes of one depends on
    the array behind it and is not covered by [as_double]. *)
Definition is_array (o : PyObject) : bool :=
  match o with PyArray _ => true | _ => false end.

(** [PyArg_ParseTuple(value, "dd", ...)]: [value] has to be a tuple, of two
    numbers. *)
Definition PyArg_ParseTuple_dd (value : PyObject) : option point :=
  match value with
  | PyTuple [a; b] => y ← as_double a; x ← as_double b; Some (y, x)
  | _ => None
  end.

Section Setters.

(** The setters of the C++ class, which have no body in the sources: the
    instance after the call and the exception thrown, if any.
    [setCropSize] is handed a [TinyVector<double,2>] by the binding, the
    conversion to the sizes it keeps is its own. *)
Variable setEyesDistance :
  FaceEyesNorm.t -> double -> FaceEyesNorm.t * option cxx_exception.
Variable setEyesAngle :
  FaceEyesNorm.t -> double -> FaceEyesNorm.t * option cxx_exception.
Variable setCropSize :
  FaceEyesNorm.t -> point -> FaceEyesNorm.t * option cxx_exception.
Variable setCropOffset :
  FaceEyesNorm.t -> point -> FaceEyesNorm.t * option cxx_exception.

(** What [CATCH(message, -1)] makes of a call of a C++ setter. *)
Definition caught (r : FaceEyesNorm.t * option cxx_exception)
  : FaceEyesNorm.t * option SetterError :=
  (r.1, SetterCxxError <$> r.2).

(** The setters return 0 with no error, -1 with one; with them goes the
    instance after the call. *)
Definition PyBobIpBaseFaceEyesNorm_setEyesDistance
    (self : FaceEyesNorm.t) (value : PyObject)
  : FaceEyesNorm.t * option SetterError :=
  match as_double value with
  | None => (self, Some FloatError)
  | Some d => caught (setEyesDistance self d)
  end.

Definition PyBobIpBaseFaceEyesNorm_setEyesAngle
    (self : FaceEyesNorm.t) (value : PyObject)
  : FaceEyesNorm.t * option SetterError :=
  match as_double value with
  | None => (self, Some FloatError)
  | Some d => caught (setEyesAngle self d)
  end.

Definition PyBobIpBaseFaceEyesNorm_setCropSize
    (self : FaceEyesNorm.t) (value : PyObject)
  : FaceEyesNorm.t * option SetterError :=
  match PyArg_ParseTuple_dd value with
  | None => (self, Some (PyExc_RuntimeError "%s %s expects a tuple of two floats"))
  | Some r => caught (setCropSize self r)
  end.

Definition PyBobIpBaseFaceEyesNorm_setCropOffset
    (self : FaceEyesNorm.t) (value : PyObject)
  : FaceEyesNorm.t * option SetterError :=
  match PyArg_ParseTuple_dd value with
  | None => (self, Some (PyExc_RuntimeError "%s %s expects a tuple of two floats"))
  | Some r => caught (setCropOffset self r)
  end.

End Setters.

End Attributes.

(** * The checks of [extract] *)

Module Heap.

Import Py.

(** The calls of [extract] that pass every check of the binding: four or
    six arguments that parse, a 2D input of a supported element type, an
    output and masks that are accepted. *)
Definition passes_checks (h : heap) (args : list PyObject)
    (kwargs : gmap string PyObject) : Prop :=
  ∃ a, Binding.parse_arguments h args kwargs = inr a
       ∧ (count_arguments args kwargs = 4 ∨ count_arguments args kwargs = 6)
       ∧ ndim (Binding.input a).2 = 2
       ∧ Binding.buffers_accepted a = true
       ∧ Binding.supported (type_num (Binding.input a).2) = true.

End Heap.

(** * The sigma setters of the header *)

(** The three sigma setters as the header has them (lines 99-101), with
    [computeKernel] left open. *)
Module Sigma.

Import WeightedGaussian.

Section ComputeKernel.

(** [computeKernel], a member function without a body in the sources: the
    instance it leaves behind and the exception it throws, if any. *)
Variable computeKernel : t -> t * option cxx_exception.

Definition setSigmaY (self : t) (sigma_y : double) : t * option cxx_exception :=
  computeKernel (with_sigma self sigma_y (m_sigma_x self)).

Definition setSigmaX (self : t) (sigma_x : double) : t * option cxx_exception :=
  computeKernel (with_sigma self (m_sigma_y self) sigma_x).

Definition setSigma (self : t) (sigma : point) : t * option cxx_exception :=
  computeKernel (with_sigma self sigma.1 sigma.2).

End ComputeKernel.

(** A [computeKernel] that reads the four parameters and does not write
    them: they are as before, whether it throws or not. *)
Definition keeps_parameters (computeKernel : t -> t * option cxx_exception)
  : Prop :=
  ∀ self, parameters (computeKernel self).1 = parameters self.

End Sigma.

(** * More sample inputs *)

Module MoreSamples.

(** A float64 buffer of four elements in one dimension, and the heap of an
    int32 image, a uint8 image and that buffer. *)
Definition buffer_flat : PyBlitzArrayObject :=
  mkArray NPY_FLOAT64 [4]%Z (Samples.pixels 4).

Definition heap_flat : Py.heap :=
  [Samples.image_int32; buffer_flat; Samples.image_uint8].

(** A [computeKernel] that throws on a non-positive sigma and otherwise
    computes the kernel of the specification. *)
Definition strict_kernel (self : WeightedGaussian.t)
  : WeightedGaussian.t * option cxx_exception :=
  if Double.leb (WeightedGaussian.m_sigma_y self) Double.zero
     || Double.leb (WeightedGaussian.m_sigma_x self) Double.zero
  then (self, Some InvalidConfigurationError)
  else (WeightedGaussian.computeKernel self, None).

(** A 2D filter that throws on a source without rows and copies any other
    source into the destination. *)
Definition refuse_empty (self : WeightedGaussian.t)
    (src dst : list (list double))
  : WeightedGaussian.t * list (list double) * option cxx_exception :=
  match src with
  | [] => (self, dst, Some ShapeMismatchError)
  | _ :: _ => (self, src, None)
  end.

End MoreSamples.

(** * Facts on the numbers *)

Section Numbers.

Local Open Scope R_scope.

Lemma Rzerob_true r : r = 0 -> Double.Rzerob r = true.
Proof. intros ->. unfold Double.Rzerob. by destruct (Req_dec_T 0 0). Qed.

Lemma Rzerob_false r : r <> 0 -> Double.Rzerob r = false.
Proof. intros H. unfold Double.Rzerob. by destruct (Req_dec_T r 0). Qed.

Lemma Rnegb_false r : 0 <= r -> Double.Rnegb r = false.
Proof. intros H. unfold Double.Rnegb. destruct (Rlt_dec r 0); [lra|done]. Qed.

Lemma eqb_finite a b :
  Double.eqb (Double.Finite a) (Double.Finite b) = true <-> a = b.
Proof. simpl. destruct (Req_dec_T a b); split; congruence. Qed.

(** [==] holds exactly between a value that is no NaN and itself. *)
Lemma eqb_true x y : Double.eqb x y = true <-> x = y ∧ x <> Double.NaN.
Proof.
  destruct x as [a|s|], y as [b|t|]; simpl;
    try (split; [discriminate|intros [? ?]; congruence]).
  - destruct (Req_dec_T a b) as [->|n]; split.
    + intros _. split; [done|discriminate].
    + done.
    + discriminate.
    + intros [[= ?] _]. contradiction.
  - destruct s, t; simpl; split; try discriminate; try done;
      intros [[= ?] _]; discriminate.
Qed.

Lemma sub_same x :
  Double.sub x x = Double.NaN
  ∨ ∃ r, x = Double.Finite r ∧ Double.sub x x = Double.Finite (r + - r).
Proof.
  destruct x as [r|s|]; simpl; eauto.
  left. unfold Double.sub. simpl. by destruct s.
Qed.

End Numbers.

(** * Properties of the argument parsing *)

Section Parsing.

Import Py.

Lemma bind_arguments_count kwlist args (kwargs : gmap string PyObject) objs :
  bind_arguments kwlist args kwargs = Some objs ->
  count_arguments args kwargs = length kwlist.
Proof.
  unfold count_arguments.
  revert args kwargs objs.
  induction kwlist as [|k kwlist IH]; intros args kwargs objs; simpl.
  - destruct args; [|discriminate].
    destruct (decide (size kwargs = 0)); [|discriminate].
    intros _. simpl. lia.
  - destruct args as [|a args].
    + destruct (kwargs !! k) as [v|] eqn:Hk; [|discriminate].
      destruct (bind_arguments kwlist [] (delete k kwargs)) as [l|] eqn:Hb;
        [|discriminate].
      intros _. apply IH in Hb. simpl in *.
      rewrite map_size_delete_Some in Hb by eauto.
      assert (size kwargs ≠ 0).
      { intros Hz. apply map_size_empty_inv in Hz. subst.
        rewrite lookup_empty in Hk. discriminate. }
      lia.
    + destruct (kwargs !! k); [discriminate|].
      destruct (bind_arguments kwlist args kwargs) as [l|] eqn:Hb;
        [|discriminate].
      intros _. apply IH in Hb. simpl. lia.
Qed.


End Parsing.

(** * [extract]: how the arguments are taken *)

Section ExtractArguments.

Import Py Binding.

Lemma parse1_count h args kwargs a :
  parse1 h args kwargs = Some a -> count_arguments args kwargs = 3.
Proof.
  unfold parse1. destruct (bind_arguments _ _ _) eqn:Hb; [|discriminate].
  intros _. by apply bind_arguments_count in Hb.
Qed.

Lemma parse2_count h args kwargs a :
  parse2 h args kwargs = Some a -> count_arguments args kwargs = 4.
Proof.
  unfold parse2. destruct (bind_arguments _ _ _) eqn:Hb; [|discriminate].
  intros _. by apply bind_arguments_count in Hb.
Qed.

Lemma parse3_count h args kwargs a :
  parse3 h args kwargs = Some a -> count_arguments args kwargs = 6.
Proof.
  unfold parse3. destruct (bind_arguments _ _ _) eqn:Hb; [|discriminate].
  intros _. by apply bind_arguments_count in Hb.
Qed.

(** With three arguments the parse of [case 4] is reached and cannot
    succeed. *)
Lemma parse_arguments_three h args kwargs :
  count_arguments args kwargs = 3 ->
  parse_arguments h args kwargs = inl ArgumentError.
Proof.
  intros Hn. unfold parse_arguments. rewrite Hn.
  destruct (parse1 h args kwargs); [|done].
  destruct (parse2 h args kwargs) eqn:H2; [|done].
  apply parse2_count in H2. congruence.
Qed.

(** The calls whose arguments are taken: four or six of them. *)
Lemma parse_arguments_inr h args kwargs a :
  parse_arguments h args kwargs = inr a ->
  (count_arguments args kwargs = 4 ∧ parse2 h args kwargs = Some a)
  ∨ (count_arguments args kwargs = 6 ∧ parse3 h args kwargs = Some a).
Proof.
  unfold parse_arguments.
  destruct (count_arguments args kwargs) as [|[|[|[|[|[|[|n]]]]]]] eqn:Hn;
    try discriminate.
  - destruct (parse1 h args kwargs); [|discriminate].
    destruct (parse2 h args kwargs) eqn:H2; [|discriminate].
    apply parse2_count in H2. congruence.
  - destruct (parse2 h args kwargs) eqn:H2; [|discriminate].
    intros [= <-]. by left.
  - destruct (parse3 h args kwargs) eqn:H3; [|discriminate].
    intros [= <-]. by right.
Qed.

Lemma converter_lookup (h : heap) o r :
  PyBlitzArray_Converter h o = Some r -> h !! r.1 = Some r.2.
Proof.
  destruct o; try discriminate. simpl.
  destruct (h !! addr) eqn:Ha; [|discriminate]. by intros [= <-].
Qed.

Lemma parse2_locals h args kwargs a :
  parse2 h args kwargs = Some a ->
  input_mask a = None ∧ output_mask a = None ∧ is_Some (output a)
  ∧ locals_in_heap h a.
Proof.
  unfold parse2. destruct (bind_arguments _ _ _) as [l|]; [|discriminate].
  destruct l as [|o1 [|o2 [|o3 [|o4 [|]]]]]; try discriminate.
  destruct (PyBlitzArray_Converter h o1) as [i|] eqn:Hi; [|discriminate].
  unfold PyBlitzArray_OutputConverter.
  destruct (PyBlitzArray_Converter h o2) as [o|] eqn:Ho; [|discriminate].
  simpl. destruct (as_dd o3); [|discriminate].
  simpl. destruct (as_dd o4); [|discriminate].
  intros [= <-]. simpl. repeat split; eauto.
  - by apply converter_lookup in Hi.
  - intros ? [= <-]. by apply converter_lookup in Ho.
  - discriminate.
  - discriminate.
Qed.

Lemma parse3_locals h args kwargs a :
  parse3 h args kwargs = Some a ->
  is_Some (input_mask a) ∧ is_Some (output_mask a) ∧ is_Some (output a)
  ∧ locals_in_heap h a.
Proof.
  unfold parse3. destruct (bind_arguments _ _ _) as [l|]; [|discriminate].
  destruct l as [|o1 [|o2 [|o3 [|o4 [|o5 [|o6 [|]]]]]]]; try discriminate.
  unfold PyBlitzArray_OutputConverter.
  destruct (PyBlitzArray_Converter h o1) as [i|] eqn:Hi; [|discriminate].
  destruct (PyBlitzArray_Converter h o2) as [im|] eqn:Him; [|discriminate].
  destruct (PyBlitzArray_Converter h o3) as [o|] eqn:Ho; [|discriminate].
  destruct (PyBlitzArray_Converter h o4) as [om|] eqn:Hom; [|discriminate].
  simpl. destruct (as_dd o5); [|discriminate].
  simpl. destruct (as_dd o6); [|discriminate].
  intros [= <-]. simpl. repeat split; eauto.
  - by apply converter_lookup in Hi.
  - intros ? [= <-]. by apply converter_lookup in Ho.
  - intros ? [= <-]. by apply converter_lookup in Him.
  - intros ? [= <-]. by apply converter_lookup in Hom.
Qed.

Lemma parse_arguments_locals h args kwargs a :
  parse_arguments h args kwargs = inr a ->
  count_arguments args kwargs ≠ 3 ∧ is_Some (output a) ∧ locals_in_heap h a.
Proof.
  intros [[Hn Hp]|[Hn Hp]]%parse_arguments_inr.
  - apply parse2_locals in Hp as (_ & _ & ? & ?). rewrite Hn. done.
  - apply parse3_locals in Hp as (_ & _ & ? & ?). rewrite Hn. done.
Qed.

End ExtractArguments.

(** * [extract]: what a call does *)

(** Splits on the masks of the locals [a] and on the two checks made when
    both are there; [fails] closes the branches in which a check fails. *)
Ltac mask_cases a fails :=
  destruct (Binding.input_mask a) as [?im|],
           (Binding.output_mask a) as [?om|];
  repeat match goal with
    | |- context [if ?b || ?c then _ else _] => destruct (b || c); [fails|]
    end.

Section Extract.

Import Py Binding.

Variable GeomNorm_process :
  FaceEyesNorm.TransformParameters ->
  PyBlitzArrayObject -> option PyBlitzArrayObject ->
  PyBlitzArrayObject -> option PyBlitzArrayObject ->
  cxx_result (list double * option (list double)).

Local Abbreviation extract := (PyBobIpBaseFaceEyesNorm_extract GeomNorm_process).
Local Abbreviation inner := (extract_inner GeomNorm_process).

Lemma same_configuration_refl a : FaceEyesNorm.same_configuration a a.
Proof. by repeat split. Qed.

Lemma cxx_extract_configuration self i im o om r l :
  FaceEyesNorm.same_configuration
    (FaceEyesNorm.extract GeomNorm_process self i im o om r l).1 self.
Proof.
  unfold FaceEyesNorm.extract.
  destruct (FaceEyesNorm.degenerate r l); simpl; by repeat split.
Qed.

Lemma extract_inner_configuration h self i im o om r l :
  FaceEyesNorm.same_configuration (inner h self i im o om r l).1 self.
Proof.
  unfold extract_inner.
  destruct im as [im|], om as [om|];
    match goal with
    | |- context [FaceEyesNorm.extract ?p ?s ?a ?b ?c ?d ?e ?f] =>
        pose proof (cxx_extract_configuration s a b c d e f) as H;
        destruct (FaceEyesNorm.extract p s a b c d e f) as [s' [e'|[el m]]]
    end; exact H.
Qed.

(** The two ways out of the body: an error before anything was done, or
    the outcome of [extract_inner]. *)
Lemma extract_body_cases h self nargs a :
  (∃ err, extract_body GeomNorm_process h self nargs a = (Py_NULL err, h, self))
  ∨ (∃ h1 out,
       extract_body GeomNorm_process h self nargs a =
       match inner h1 self (input a) (input_mask a) out (output_mask a)
               (right_eye a) (left_eye a) with
       | (self', inl e) => (Py_NULL (CxxError e), h, self')
       | (self', inr h2) =>
           if bool_decide (nargs = 3)
           then (Py_Return (PyArray out.1), h2, self')
           else (Py_RETURN_NONE, h2, self')
       end).
Proof.
  unfold extract_body.
  case_bool_decide; [left; eauto|].
  destruct (output a) as [o|]; cbv zeta.
  - case_bool_decide; [left; eauto|].
    case_bool_decide; [left; eauto|].
    mask_cases a ltac:(left; eauto);
      (destruct (supported _); [right; eauto|left; eauto]).
  - mask_cases a ltac:(left; eauto);
      (destruct (supported _); [right; eauto|left; eauto]).
Qed.

Lemma extract_body_configuration h self nargs a :
  FaceEyesNorm.same_configuration
    (extract_body GeomNorm_process h self nargs a).2 self.
Proof.
  destruct (extract_body_cases h self nargs a) as [[err ->]|(h1 & out & ->)].
  - apply same_configuration_refl.
  - pose proof (extract_inner_configuration h1 self (input a) (input_mask a)
                  out (output_mask a) (right_eye a) (left_eye a)) as H.
    destruct (inner _ _ _ _ _ _ _ _) as [s' [e|h2]]; [exact H|].
    by case_bool_decide.
Qed.

(** A call of [extract], whatever its outcome, leaves the configured
    values of the instance as they were. *)
Lemma extract_configuration h self args kwargs :
  FaceEyesNorm.same_configuration (extract h self args kwargs).2 self.
Proof.
  unfold PyBobIpBaseFaceEyesNorm_extract.
  destruct (parse_arguments h args kwargs).
  - apply same_configuration_refl.
  - apply extract_body_configuration.
Qed.

End Extract.

(** * The C++ class *)

Section Class.

Local Open Scope R_scope.

Lemma equal_configured a b :
  FaceEyesNorm.equal a b = true <-> FaceEyesNorm.configured_equal a b.
Proof.
  unfold FaceEyesNorm.equal, FaceEyesNorm.configured_equal,
    FaceEyesNorm.point_eqb.
  rewrite !andb_true_iff, bool_decide_eq_true. tauto.
Qed.

Lemma equal_same_configuration a a' b :
  FaceEyesNorm.same_configuration a' a ->
  FaceEyesNorm.equal a' b = FaceEyesNorm.equal a b
  ∧ FaceEyesNorm.equal b a' = FaceEyesNorm.equal b a.
Proof.
  intros (H1 & H2 & H3 & H4). unfold FaceEyesNorm.equal.
  by rewrite H1, H2, H3, H4.
Qed.

Lemma equal_angle_differs a b :
  Double.eqb (FaceEyesNorm.eyes_angle a) (FaceEyesNorm.eyes_angle b) = false ->
  FaceEyesNorm.equal a b = false.
Proof.
  intros H. unfold FaceEyesNorm.equal. rewrite H.
  by rewrite andb_false_r.
Qed.

Lemma distance_same p :
  FaceEyesNorm.distance p p = Double.NaN
  ∨ FaceEyesNorm.distance p p = Double.Finite (sqrt 0).
Proof.
  unfold FaceEyesNorm.distance. destruct p as [y x]. simpl.
  destruct (sub_same y) as [->|(a & -> & ->)]; [by left|].
  destruct (sub_same x) as [->|(b & -> & ->)]; [by left|].
  right. simpl.
  replace ((a + - a) * (a + - a) + (b + - b) * (b + - b)) with 0 by lra.
  by rewrite Rnegb_false by lra.
Qed.

(** Two landmarks at the same place are degenerate, whatever the place. *)
Lemma degenerate_same p : FaceEyesNorm.degenerate p p = true.
Proof.
  unfold FaceEyesNorm.degenerate.
  destruct (distance_same p) as [->| ->]; [done|].
  simpl. by rewrite Rzerob_true by apply sqrt_0.
Qed.

End Class.

(** * The claims on the binding *)

Section Comparison.

Import Py Binding.

(** C10: comparing an instance with an object that is no FaceEyesNorm
    raises a [TypeError], for [==], for [!=] and for every other operator;
    no truth value (and no [NotImplemented]) is returned. *)
Theorem compare_with_foreign_object self other op :
  PyBobIpBaseFaceEyesNorm_Check other = false ->
  PyBobIpBaseFaceEyesNorm_RichCompare self other op
  = Py_NULL (PyExc_TypeError "cannot compare `%s' with `%s'").
Proof.
  intros H. unfold PyBobIpBaseFaceEyesNorm_RichCompare. by rewrite H.
Qed.

Lemma compare_with_foreign_object_witness :
  PyBobIpBaseFaceEyesNorm_Check (PyLong 3) = false
  ∧ PyBobIpBaseFaceEyesNorm_RichCompare Samples.face (PyLong 3) Py_EQ
    = Py_NULL (PyExc_TypeError "cannot compare `%s' with `%s'")
  ∧ PyBobIpBaseFaceEyesNorm_RichCompare Samples.face PyNone Py_NE
    = Py_NULL (PyExc_TypeError "cannot compare `%s' with `%s'").
Proof.
  split; [reflexivity|].
  split; apply compare_with_foreign_object; reflexivity.
Defined.

Lemma compare_eq a b :
  PyBobIpBaseFaceEyesNorm_RichCompare a (PyFaceEyesNormObject b) Py_EQ
  = Py_Return (PyBool (FaceEyesNorm.equal a b)).
Proof.
  unfold PyBobIpBaseFaceEyesNorm_RichCompare. simpl.
  by destruct (FaceEyesNorm.equal a b).
Qed.

Lemma compare_ne a b :
  PyBobIpBaseFaceEyesNorm_RichCompare a (PyFaceEyesNormObject b) Py_NE
  = Py_Return (PyBool (negb (FaceEyesNorm.equal a b))).
Proof.
  unfold PyBobIpBaseFaceEyesNorm_RichCompare. simpl.
  by destruct (FaceEyesNorm.equal a b).
Qed.

Lemma compare_same_configuration a a' b op :
  FaceEyesNorm.same_configuration a' a ->
  PyBobIpBaseFaceEyesNorm_RichCompare a' (PyFaceEyesNormObject b) op
  = PyBobIpBaseFaceEyesNorm_RichCompare a (PyFaceEyesNormObject b) op
  ∧ PyBobIpBaseFaceEyesNorm_RichCompare b (PyFaceEyesNormObject a') op
    = PyBobIpBaseFaceEyesNorm_RichCompare b (PyFaceEyesNormObject a) op.
Proof.
  intros H. destruct (equal_same_configuration a a' b H) as [H1 H2].
  unfold PyBobIpBaseFaceEyesNorm_RichCompare. simpl.
  by rewrite H1, H2.
Qed.

Variable GeomNorm_process :
  FaceEyesNorm.TransformParameters ->
  PyBlitzArrayObject -> option PyBlitzArrayObject ->
  PyBlitzArrayObject -> option PyBlitzArrayObject ->
  cxx_result (list double * option (list double)).

(** C6: two instances compare equal exactly when their configured crop
    size, eyes distance, eyes angle and crop offset are pairwise equal
    ([!=] is the negation).  Instances that differ in the last-applied
    values only compare alike with any other, and so a call of [extract] on
    an instance changes no comparison it takes part in, on either side. *)
Theorem compare_by_configuration :
  (∀ a b,
     PyBobIpBaseFaceEyesNorm_RichCompare a (PyFaceEyesNormObject b) Py_EQ
     = Py_RETURN_TRUE <-> FaceEyesNorm.configured_equal a b)
  ∧ (∀ a b,
       PyBobIpBaseFaceEyesNorm_RichCompare a (PyFaceEyesNormObject b) Py_EQ
       = Py_RETURN_FALSE <-> ¬ FaceEyesNorm.configured_equal a b)
  ∧ (∀ a b,
       PyBobIpBaseFaceEyesNorm_RichCompare a (PyFaceEyesNormObject b) Py_NE
       = Py_RETURN_FALSE <-> FaceEyesNorm.configured_equal a b)
  ∧ (∀ a b,
       PyBobIpBaseFaceEyesNorm_RichCompare a (PyFaceEyesNormObject b) Py_NE
       = Py_RETURN_TRUE <-> ¬ FaceEyesNorm.configured_equal a b)
  ∧ (∀ a a' b op,
       FaceEyesNorm.same_configuration a' a ->
       PyBobIpBaseFaceEyesNorm_RichCompare a' (PyFaceEyesNormObject b) op
       = PyBobIpBaseFaceEyesNorm_RichCompare a (PyFaceEyesNormObject b) op
       ∧ PyBobIpBaseFaceEyesNorm_RichCompare b (PyFaceEyesNormObject a') op
         = PyBobIpBaseFaceEyesNorm_RichCompare b (PyFaceEyesNormObject a) op)
  ∧ (∀ h a args kwargs b op,
       let a' := (PyBobIpBaseFaceEyesNorm_extract GeomNorm_process
                    h a args kwargs).2 in
       PyBobIpBaseFaceEyesNorm_RichCompare a' (PyFaceEyesNormObject b) op
       = PyBobIpBaseFaceEyesNorm_RichCompare a (PyFaceEyesNormObject b) op
       ∧ PyBobIpBaseFaceEyesNorm_RichCompare b (PyFaceEyesNormObject a') op
         = PyBobIpBaseFaceEyesNorm_RichCompare b (PyFaceEyesNormObject a) op).
Proof.
  repeat apply conj.
  - intros a b. rewrite compare_eq, <- equal_configured.
    destruct (FaceEyesNorm.equal a b); naive_solver.
  - intros a b. rewrite compare_eq, <- equal_configured.
    destruct (FaceEyesNorm.equal a b); naive_solver.
  - intros a b. rewrite compare_ne, <- equal_configured.
    destruct (FaceEyesNorm.equal a b); naive_solver.
  - intros a b. rewrite compare_ne, <- equal_configured.
    destruct (FaceEyesNorm.equal a b); naive_solver.
  - intros a a' b op. apply compare_same_configuration.
  - intros h a args kwargs b op a'. apply compare_same_configuration.
    apply extract_configuration.
Qed.

End Comparison.

Section ExtractClaims.

Import Py Binding.

Variable GeomNorm_process :
  FaceEyesNorm.TransformParameters ->
  PyBlitzArrayObject -> option PyBlitzArrayObject ->
  PyBlitzArrayObject -> option PyBlitzArrayObject ->
  cxx_result (list double * option (list double)).

Local Abbreviation extract := (PyBobIpBaseFaceEyesNorm_extract GeomNorm_process).
Local Abbreviation inner := (extract_inner GeomNorm_process).

(** C1, as the code has it: a call with exactly three arguments, the form
    [extract(input, right_eye, left_eye)] of the documentation, never gets
    past the parsing.  [case 3] runs on into [case 4], whose four-parameter
    parse cannot take three arguments; the call returns [NULL], allocates
    nothing and returns no image. *)
Theorem extract_three_arguments_fail h self args kwargs :
  count_arguments args kwargs = 3 ->
  extract h self args kwargs = (Py_NULL ArgumentError, h, self).
Proof.
  intros Hn. unfold PyBobIpBaseFaceEyesNorm_extract.
  by rewrite parse_arguments_three.
Qed.

(** What a call does once its arguments are taken and its buffers pass the
    checks. *)
Lemma extract_dispatch h self args kwargs a :
  parse_arguments h args kwargs = inr a ->
  ndim (input a).2 = 2 ->
  buffers_accepted a = true ->
  ∃ out,
    output a = Some out ∧ type_num out.2 = NPY_FLOAT64
    ∧ extract h self args kwargs =
      if supported (type_num (input a).2) then
        match inner h self (input a) (input_mask a) out (output_mask a)
                (right_eye a) (left_eye a) with
        | (self', inl e) => (Py_NULL (CxxError e), h, self')
        | (self', inr h2) => (Py_RETURN_NONE, h2, self')
        end
      else
        (Py_NULL (PyExc_TypeError "`%s' input array of type %s are currently not supported"), h, self).
Proof.
  intros Hp Hnd Hb. unfold PyBobIpBaseFaceEyesNorm_extract. rewrite Hp.
  apply parse_arguments_locals in Hp as (Hn & [out Hout] & _).
  exists out. split; [done|].
  unfold buffers_accepted, output_accepted, masks_accepted in Hb.
  rewrite Hout in Hb.
  apply andb_true_iff in Hb as [Ho Hm].
  apply andb_true_iff in Ho as [Ho1 Ho2].
  apply bool_decide_eq_true in Ho1, Ho2.
  split; [done|].
  unfold extract_body. rewrite Hout.
  rewrite bool_decide_eq_false_2 by (intros ?; congruence).
  rewrite bool_decide_eq_false_2 by (intros ?; congruence).
  rewrite bool_decide_eq_false_2 by (intros ?; congruence).
  cbv zeta.
  assert (match input_mask a, output_mask a with
          | Some im, Some om =>
              if bool_decide (ndim im.2 ≠ 2) || bool_decide (ndim om.2 ≠ 2) then
                Some (PyExc_TypeError "`%s' masks must have the same shape as the input or output matrix")
              else if bool_decide (type_num im.2 ≠ NPY_BOOL)
                      || bool_decide (type_num om.2 ≠ NPY_BOOL) then
                Some (PyExc_TypeError "`%s' masks must be of boolean type")
              else None
          | _, _ => None
          end = None) as ->.
  { destruct (input_mask a) as [im|], (output_mask a) as [om|]; try done.
    rewrite !andb_true_iff in Hm. destruct Hm as [[[H1 H2] H3] H4].
    apply bool_decide_eq_true in H1, H2, H3, H4.
    rewrite !bool_decide_eq_false_2 by (intros ?; congruence). done. }
  destruct (supported _); [|done].
  destruct (inner _ _ _ _ _ _ _ _) as [s' [e|h2]]; [done|].
  by rewrite bool_decide_eq_false_2.
Qed.

(** After [extract_inner] the output array still is a float64 array. *)
Lemma extract_inner_output_type h self a out h2 self' :
  locals_in_heap h a ->
  output a = Some out ->
  buffers_accepted a = true ->
  inner h self (input a) (input_mask a) out (output_mask a)
    (right_eye a) (left_eye a) = (self', inr h2) ->
  ∃ elements,
    h2 !! out.1 = Some (mkArray NPY_FLOAT64 (shape out.2) elements).
Proof.
  intros (_ & Hout & _ & Hom) Ho Hb.
  specialize (Hout _ Ho).
  unfold buffers_accepted, output_accepted, masks_accepted in Hb.
  rewrite Ho in Hb.
  apply andb_true_iff in Hb as [Hb Hm].
  apply andb_true_iff in Hb as [_ Ht]. apply bool_decide_eq_true in Ht.
  assert (out.1 < length h)%nat as Hlt by (eapply lookup_lt_Some; eauto).
  unfold extract_inner.
  destruct (input_mask a) as [im|], (output_mask a) as [om|].
  2-4: destruct (FaceEyesNorm.extract _ _ _ _ _ _ _ _) as [s' [e|[el m]]];
       [discriminate|]; intros [= _ <-]; exists el; unfold store;
       rewrite list_lookup_insert_eq by done; by rewrite Ht.
  destruct (FaceEyesNorm.extract _ _ _ _ _ _ _ _) as [s' [e|[el m]]];
    [discriminate|].
  intros [= _ <-]. destruct m as [m|].
  - exists el. unfold store.
    rewrite list_lookup_insert_ne.
    + rewrite list_lookup_insert_eq by done. by rewrite Ht.
    + intros Heq. specialize (Hom _ eq_refl). rewrite Heq, Hout in Hom.
      rewrite !andb_true_iff in Hm. destruct Hm as [_ H4].
      apply bool_decide_eq_true in H4. congruence.
  - exists el. unfold store.
    rewrite list_lookup_insert_eq by done. by rewrite Ht.
Qed.

(** A buffer that fails its check is what the call reports, before the
    element type of the input is looked at. *)
Lemma extract_buffers_refused h self args kwargs a :
  parse_arguments h args kwargs = inr a ->
  ndim (input a).2 = 2 ->
  buffers_accepted a = false ->
  ∃ format,
    extract h self args kwargs = (Py_NULL (PyExc_TypeError format), h, self)
    ∧ format ≠ "`%s' input array of type %s are currently not supported".
Proof.
  intros Hp Hnd Hb. unfold PyBobIpBaseFaceEyesNorm_extract. rewrite Hp.
  apply parse_arguments_locals in Hp as (_ & [out Hout] & _).
  unfold extract_body. rewrite Hout. cbv zeta.
  rewrite bool_decide_eq_false_2 by (intros ?; congruence).
  case_bool_decide as H2; [eexists; split; [reflexivity|discriminate]|].
  case_bool_decide as H3; [eexists; split; [reflexivity|discriminate]|].
  assert (output_accepted a = true) as Ho.
  { unfold output_accepted. rewrite Hout.
    by rewrite !bool_decide_eq_true_2. }
  unfold buffers_accepted in Hb. rewrite Ho in Hb. simpl in Hb.
  unfold masks_accepted in Hb.
  destruct (input_mask a) as [im|], (output_mask a) as [om|];
    try discriminate.
  destruct (bool_decide (ndim im.2 ≠ 2)) eqn:M1;
    [eexists; split; [reflexivity|discriminate]|].
  destruct (bool_decide (ndim om.2 ≠ 2)) eqn:M2;
    [eexists; split; [reflexivity|discriminate]|].
  destruct (bool_decide (type_num im.2 ≠ NPY_BOOL)) eqn:M3;
    [eexists; split; [reflexivity|discriminate]|].
  destruct (bool_decide (type_num om.2 ≠ NPY_BOOL)) eqn:M4;
    [eexists; split; [reflexivity|discriminate]|].
  apply bool_decide_eq_false in M1, M2, M3, M4.
  apply dec_stable in M1, M2, M3, M4.
  by rewrite !bool_decide_eq_true_2 in Hb.
Qed.

(** C2, amended: of a call whose four or six arguments are taken, with a
    2D input, the output and the masks are checked first, and a buffer
    that fails its check is the error of the call, whatever the element
    type of the input.  With the buffers in order, an input whose element
    type is none of uint8, uint16 and float64 fails with the error of the
    unsupported element type, the arrays and the instance untouched; an
    input of one of the three types is handed to the C++ [extract], and
    the output it is written to is a float64 array before and after. *)
Theorem extract_element_types h self args kwargs a :
  parse_arguments h args kwargs = inr a ->
  ndim (input a).2 = 2 ->
  (buffers_accepted a = false ->
   ∃ format,
     extract h self args kwargs = (Py_NULL (PyExc_TypeError format), h, self)
     ∧ format ≠ "`%s' input array of type %s are currently not supported")
  ∧ (buffers_accepted a = true ->
     supported (type_num (input a).2) = false ->
     extract h self args kwargs
     = (Py_NULL (PyExc_TypeError "`%s' input array of type %s are currently not supported"),
        h, self))
  ∧ (buffers_accepted a = true ->
     supported (type_num (input a).2) = true ->
     ∃ out,
       output a = Some out ∧ type_num out.2 = NPY_FLOAT64
       ∧ match inner h self (input a) (input_mask a) out (output_mask a)
                 (right_eye a) (left_eye a) with
         | (self', inl e) =>
             extract h self args kwargs = (Py_NULL (CxxError e), h, self')
         | (self', inr h2) =>
             extract h self args kwargs = (Py_RETURN_NONE, h2, self')
             ∧ ∃ elements,
                 h2 !! out.1
                 = Some (mkArray NPY_FLOAT64 (shape out.2) elements)
         end).
Proof.
  intros Hp Hnd. split; [|split].
  - by apply extract_buffers_refused.
  - intros Hb Hs.
    destruct (extract_dispatch h self args kwargs a Hp Hnd Hb)
      as (out & _ & _ & Hex).
    by rewrite Hs in Hex.
  - intros Hb Hs.
    destruct (extract_dispatch h self args kwargs a Hp Hnd Hb)
      as (out & Hout & Ht & Hex).
    exists out. split; [done|]. split; [done|].
    rewrite Hs in Hex.
    destruct (inner _ _ _ _ _ _ _ _) as [s' [e|h2]] eqn:Hin; [done|].
    split; [done|].
    apply parse_arguments_locals in Hp as (_ & _ & Hl).
    eapply extract_inner_output_type; eauto.
Qed.

(** C3: landmarks whose observed distance is zero or not finite make the
    C++ [extract] throw a [DegenerateLandmarksError] with the instance
    untouched; two landmarks at the same place are such a pair whatever the
    place; and through the binding the call fails with that error, writes
    to no array and leaves the instance as it was. *)
Theorem degenerate_landmarks_rejected :
  (∀ self input input_mask output output_mask right left,
     Double.is_zero (FaceEyesNorm.distance left right) = true
     ∨ Double.is_finite (FaceEyesNorm.distance left right) = false ->
     FaceEyesNorm.extract GeomNorm_process self input input_mask
       output output_mask right left
     = (self, inl DegenerateLandmarksError))
  ∧ (∀ self input input_mask output output_mask p,
       FaceEyesNorm.extract GeomNorm_process self input input_mask
         output output_mask p p
       = (self, inl DegenerateLandmarksError))
  ∧ (∀ h self args kwargs a,
       parse_arguments h args kwargs = inr a ->
       ndim (input a).2 = 2 ->
       buffers_accepted a = true ->
       supported (type_num (input a).2) = true ->
       Double.is_zero (FaceEyesNorm.distance (left_eye a) (right_eye a)) = true
       ∨ Double.is_finite (FaceEyesNorm.distance (left_eye a) (right_eye a)) = false ->
       extract h self args kwargs
       = (Py_NULL (CxxError DegenerateLandmarksError), h, self)).
Proof.
  assert (∀ self input input_mask output output_mask right left,
     Double.is_zero (FaceEyesNorm.distance left right) = true
     ∨ Double.is_finite (FaceEyesNorm.distance left right) = false ->
     FaceEyesNorm.extract GeomNorm_process self input input_mask
       output output_mask right left
     = (self, inl DegenerateLandmarksError)) as Hcxx.
  { intros self i im o om r l Hd. unfold FaceEyesNorm.extract.
    assert (FaceEyesNorm.degenerate r l = true) as ->; [|done].
    unfold FaceEyesNorm.degenerate.
    destruct Hd as [-> | ->]; [done|]. by rewrite orb_true_r. }
  split; [exact Hcxx|]. split.
  - intros self i im o om p. unfold FaceEyesNorm.extract.
    by rewrite degenerate_same.
  - intros h self args kwargs a Hp Hnd Hb Hs Hd.
    destruct (extract_dispatch h self args kwargs a Hp Hnd Hb)
      as (out & Hout & Ht & ->).
    rewrite Hs. unfold extract_inner.
    destruct (input_mask a) as [im|], (output_mask a) as [om|];
      by rewrite Hcxx.
Qed.

End ExtractClaims.

Section ExtractWitnesses.

Import Py Binding.

Lemma degenerate_iff r l :
  FaceEyesNorm.degenerate r l = true
  <-> Double.is_zero (FaceEyesNorm.distance l r) = true
      ∨ Double.is_finite (FaceEyesNorm.distance l r) = false.
Proof.
  unfold FaceEyesNorm.degenerate.
  rewrite orb_true_iff, negb_true_iff. tauto.
Qed.

(** The call [extract(image, (1, 0), (1, 1))] on a 2x2 uint8 image: its
    arguments fit the three-argument form, and it fails. *)
Lemma extract_three_arguments_fail_witness :
  count_arguments [PyArray 0; Samples.pair 1 0; Samples.pair 1 1] ∅ = 3
  ∧ is_Some (parse1 Samples.heap_uint8
               [PyArray 0; Samples.pair 1 0; Samples.pair 1 1] ∅)
  ∧ PyBobIpBaseFaceEyesNorm_extract Samples.keep_output
      Samples.heap_uint8 Samples.face
      [PyArray 0; Samples.pair 1 0; Samples.pair 1 1] ∅
    = (Py_NULL ArgumentError, Samples.heap_uint8, Samples.face).
Proof.
  split; [reflexivity|].
  split; [eexists; reflexivity|].
  apply extract_three_arguments_fail. reflexivity.
Defined.

(** The call [extract(image, output, (1, 0), (1, 1))] on a 2x2 int32
    image and a 2x2 float64 output. *)
Lemma extract_element_types_witness :
  ∃ a,
    parse_arguments Samples.heap_int32
      [PyArray 0; PyArray 1; Samples.pair 1 0; Samples.pair 1 1] ∅ = inr a
    ∧ ndim (input a).2 = 2
    ∧ buffers_accepted a = true
    ∧ supported (type_num (input a).2) = false
    ∧ PyBobIpBaseFaceEyesNorm_extract Samples.keep_output
        Samples.heap_int32 Samples.face
        [PyArray 0; PyArray 1; Samples.pair 1 0; Samples.pair 1 1] ∅
      = (Py_NULL (PyExc_TypeError "`%s' input array of type %s are currently not supported"),
         Samples.heap_int32, Samples.face).
Proof.
  eexists. split; [reflexivity|].
  split; [reflexivity|]. split; [reflexivity|]. split; [reflexivity|].
  edestruct (extract_element_types Samples.keep_output
               Samples.heap_int32 Samples.face
               [PyArray 0; PyArray 1; Samples.pair 1 0; Samples.pair 1 1] ∅)
    as (_ & H & _); [reflexivity|reflexivity|].
  exact (H eq_refl eq_refl).
Defined.

(** C2, as stated, fails: with an output buffer of one dimension, an int32
    image is refused for the output, not for its element type, and a uint8
    image is not accepted. *)
Lemma extract_reports_output_first :
  ndim Samples.image_int32 = 2
  ∧ supported (type_num Samples.image_int32) = false
  ∧ PyBobIpBaseFaceEyesNorm_extract Samples.keep_output
      MoreSamples.heap_flat Samples.face
      [PyArray 0; PyArray 1; Samples.pair 1 0; Samples.pair 1 1] ∅
    = (Py_NULL (PyExc_TypeError "'%s' the 'output' array must be 2D"),
       MoreSamples.heap_flat, Samples.face)
  ∧ ndim Samples.image_uint8 = 2
  ∧ supported (type_num Samples.image_uint8) = true
  ∧ PyBobIpBaseFaceEyesNorm_extract Samples.keep_output
      MoreSamples.heap_flat Samples.face
      [PyArray 2; PyArray 1; Samples.pair 1 0; Samples.pair 1 1] ∅
    = (Py_NULL (PyExc_TypeError "'%s' the 'output' array must be 2D"),
       MoreSamples.heap_flat, Samples.face).
Proof. repeat split. Qed.

(** The call [extract(image, output, (1, 1), (1, 1))], both landmarks at
    the same place. *)
Lemma degenerate_landmarks_rejected_witness :
  PyBobIpBaseFaceEyesNorm_extract Samples.keep_output
    Samples.heap_uint8 Samples.face
    [PyArray 0; PyArray 1; Samples.pair 1 1; Samples.pair 1 1] ∅
  = (Py_NULL (CxxError DegenerateLandmarksError),
     Samples.heap_uint8, Samples.face).
Proof.
  destruct (degenerate_landmarks_rejected Samples.keep_output)
    as (_ & _ & H).
  eapply H; [reflexivity|reflexivity|reflexivity|reflexivity|].
  apply degenerate_iff, degenerate_same.
Defined.

End ExtractWitnesses.

(** * The two constructors *)

Section Constructors.

Import Py Binding.
Local Open Scope R_scope.

Lemma distance_finite a b c d :
  FaceEyesNorm.distance (Double.Finite a, Double.Finite b)
    (Double.Finite c, Double.Finite d)
  = Double.Finite (sqrt ((a + - c) * (a + - c) + (b + - d) * (b + - d))).
Proof.
  unfold FaceEyesNorm.distance. simpl. rewrite Rnegb_false; [done|].
  pose proof (Rle_0_sqr (a + - c)). pose proof (Rle_0_sqr (b + - d)).
  unfold Rsqr in *. lra.
Qed.

Lemma midpoint_finite a b c d :
  FaceEyesNorm.midpoint (Double.Finite a, Double.Finite b)
    (Double.Finite c, Double.Finite d)
  = (Double.Finite ((a + c) / 2), Double.Finite ((b + d) / 2)).
Proof.
  unfold FaceEyesNorm.midpoint. simpl. by rewrite Rzerob_false by lra.
Qed.

Lemma angle_finite a b c d :
  FaceEyesNorm.angle_to_horizontal (Double.Finite a, Double.Finite b)
    (Double.Finite c, Double.Finite d)
  = Double.Finite (Double.Ratan2 (c + - a) (d + - b)).
Proof. reflexivity. Qed.

(** Along the positive horizontal axis the angle is zero. *)
Lemma Ratan2_level x : 0 <= x -> Double.Ratan2 0 x = 0.
Proof.
  intros Hx. unfold Double.Ratan2.
  destruct (Rlt_dec 0 x).
  - replace (0 / x) with 0 by (field; lra). apply atan_0.
  - repeat destruct (Rlt_dec _ _); lra.
Qed.

(** Straight up the angle is a quarter turn. *)
Lemma Ratan2_upright y : 0 < y -> Double.Ratan2 y 0 = PI / 2.
Proof.
  intros Hy. unfold Double.Ratan2.
  repeat destruct (Rlt_dec _ _); lra.
Qed.

Lemma eqb_finite_refl a : Double.eqb (Double.Finite a) (Double.Finite a) = true.
Proof. by apply eqb_finite. Qed.

(** C5, amended: for targets on one row, the left one not to the left of
    the right one, and a positive crop size, the instance made from the two
    targets compares equal to the one made from their distance and their
    midpoint. *)
Theorem constructors_agree_on_level_targets size (y rx lx : R) :
  FaceEyesNorm.valid_crop_size size = true ->
  rx <= lx ->
  ∃ a b,
    FaceEyesNorm.new_with_eyes size
      (Double.Finite y, Double.Finite rx) (Double.Finite y, Double.Finite lx)
    = inr a
    ∧ FaceEyesNorm.new_with_distance size
        (FaceEyesNorm.distance
           (Double.Finite y, Double.Finite rx) (Double.Finite y, Double.Finite lx))
        (FaceEyesNorm.midpoint
           (Double.Finite y, Double.Finite rx) (Double.Finite y, Double.Finite lx))
      = inr b
    ∧ PyBobIpBaseFaceEyesNorm_RichCompare a (PyFaceEyesNormObject b) Py_EQ
      = Py_RETURN_TRUE
    ∧ PyBobIpBaseFaceEyesNorm_RichCompare a (PyFaceEyesNormObject b) Py_NE
      = Py_RETURN_FALSE.
Proof.
  intros Hsize Hx.
  unfold FaceEyesNorm.new_with_eyes, FaceEyesNorm.new_with_distance.
  rewrite Hsize. eexists _, _. split; [reflexivity|]. split; [reflexivity|].
  assert (FaceEyesNorm.equal
    {| FaceEyesNorm.crop_size := size;
       FaceEyesNorm.eyes_distance :=
         FaceEyesNorm.distance (Double.Finite y, Double.Finite rx)
           (Double.Finite y, Double.Finite lx);
       FaceEyesNorm.eyes_angle :=
         FaceEyesNorm.angle_to_horizontal (Double.Finite y, Double.Finite rx)
           (Double.Finite y, Double.Finite lx);
       FaceEyesNorm.crop_offset :=
         FaceEyesNorm.midpoint (Double.Finite y, Double.Finite rx)
           (Double.Finite y, Double.Finite lx);
       FaceEyesNorm.last_angle := Double.zero;
       FaceEyesNorm.last_scale := Double.zero;
       FaceEyesNorm.last_offset := (Double.zero, Double.zero) |}
    {| FaceEyesNorm.crop_size := size;
       FaceEyesNorm.eyes_distance :=
         FaceEyesNorm.distance (Double.Finite y, Double.Finite rx)
           (Double.Finite y, Double.Finite lx);
       FaceEyesNorm.eyes_angle := Double.zero;
       FaceEyesNorm.crop_offset :=
         FaceEyesNorm.midpoint (Double.Finite y, Double.Finite rx)
           (Double.Finite y, Double.Finite lx);
       FaceEyesNorm.last_angle := Double.zero;
       FaceEyesNorm.last_scale := Double.zero;
       FaceEyesNorm.last_offset := (Double.zero, Double.zero) |} = true) as He.
  { apply equal_configured. unfold FaceEyesNorm.configured_equal.
    rewrite distance_finite, midpoint_finite, angle_finite. simpl.
    split; [done|]. split; [apply eqb_finite_refl|].
    split; [|split; apply eqb_finite_refl].
    apply eqb_finite.
    replace (y + - y) with 0 by lra. apply Ratan2_level. lra. }
  rewrite compare_eq, compare_ne, He. done.
Qed.

(** The instance of the specification: crop size (64, 64), targets
    (16, 24) and (16, 40). *)
Lemma constructors_agree_on_level_targets_witness :
  ∃ a b,
    FaceEyesNorm.new_with_eyes (64, 64)%Z
      (Double.Finite 16, Double.Finite 24) (Double.Finite 16, Double.Finite 40)
    = inr a
    ∧ FaceEyesNorm.new_with_distance (64, 64)%Z
        (FaceEyesNorm.distance
           (Double.Finite 16, Double.Finite 24) (Double.Finite 16, Double.Finite 40))
        (FaceEyesNorm.midpoint
           (Double.Finite 16, Double.Finite 24) (Double.Finite 16, Double.Finite 40))
      = inr b
    ∧ PyBobIpBaseFaceEyesNorm_RichCompare a (PyFaceEyesNormObject b) Py_EQ
      = Py_RETURN_TRUE
    ∧ PyBobIpBaseFaceEyesNorm_RichCompare a (PyFaceEyesNormObject b) Py_NE
      = Py_RETURN_FALSE.
Proof.
  apply (constructors_agree_on_level_targets (64, 64)%Z 16 24 40).
  - reflexivity.
  - lra.
Defined.

End Constructors.

Section ConstructorExamples.

Import Py Binding.
Local Open Scope R_scope.

(** The two-target form called by keyword. *)
Lemma init_keywords_eyes get_item crop_size right_eye left_eye :
  PyBobIpBaseFaceEyesNorm_init get_item []
    (<["crop_size" := crop_size]>
       (<["right_eye" := right_eye]> (<["left_eye" := left_eye]> ∅)))
  = match as_ii crop_size, as_dd right_eye, as_dd left_eye with
    | Some size, Some r, Some l => CATCH (FaceEyesNorm.new_with_eyes size r l)
    | _, _, _ => inl ArgumentError
    end.
Proof.
  unfold PyBobIpBaseFaceEyesNorm_init, count_arguments.
  set (kwargs := <["crop_size" := crop_size]> _).
  assert (size kwargs = 3%nat) as -> by (vm_compute; reflexivity).
  assert (kwargs !! "right_eye" = Some right_eye) as ->
    by (vm_compute; reflexivity).
  assert (bind_arguments kwlist_init2 [] kwargs
          = Some [crop_size; right_eye; left_eye]) as ->
    by (vm_compute; reflexivity).
  rewrite (bool_decide_eq_true_2 (is_Some (Some right_eye))) by eauto.
  by rewrite orb_true_r.
Qed.

(** The distance form called by keyword. *)
Lemma init_keywords_distance get_item crop_size eyes_distance eyes_center :
  PyBobIpBaseFaceEyesNorm_init get_item []
    (<["crop_size" := crop_size]>
       (<["eyes_distance" := eyes_distance]>
          (<["eyes_center" := eyes_center]> ∅)))
  = match as_ii crop_size, as_double eyes_distance, as_dd eyes_center with
    | Some size, Some d, Some c => CATCH (FaceEyesNorm.new_with_distance size d c)
    | _, _, _ => inl ArgumentError
    end.
Proof.
  unfold PyBobIpBaseFaceEyesNorm_init, count_arguments.
  set (kwargs := <["crop_size" := crop_size]> _).
  assert (size kwargs = 3%nat) as -> by (vm_compute; reflexivity).
  assert (kwargs !! "right_eye" = None) as -> by (vm_compute; reflexivity).
  assert (bind_arguments kwlist_init1 [] kwargs
          = Some [crop_size; eyes_distance; eyes_center]) as ->
    by (vm_compute; reflexivity).
  rewrite (bool_decide_eq_false_2 (is_Some None)) by (by intros [? ?]).
  done.
Qed.

(** C5, as stated, fails: with the targets (16, 24) and (32, 24), one
    above the other, the instance made from the targets, as
    [FaceEyesNorm(crop_size=(64, 64), right_eye=(16, 24), left_eye=(32, 24))]
    makes it, has its eyes at a quarter turn from the horizontal, the one
    made from their distance and their midpoint has them level, and the two
    compare unequal. *)
Lemma constructors_differ_on_upright_targets :
  ∃ a b,
    PyBobIpBaseFaceEyesNorm_init Samples.item []
      (<["crop_size" := Samples.pair 64 64]>
         (<["right_eye" := Samples.pair 16 24]>
            (<["left_eye" := Samples.pair 32 24]> ∅))) = inr a
    ∧ FaceEyesNorm.new_with_eyes (64, 64)%Z
        (Double.Finite 16, Double.Finite 24) (Double.Finite 32, Double.Finite 24)
      = inr a
    ∧ FaceEyesNorm.new_with_distance (64, 64)%Z
        (FaceEyesNorm.distance
           (Double.Finite 16, Double.Finite 24) (Double.Finite 32, Double.Finite 24))
        (FaceEyesNorm.midpoint
           (Double.Finite 16, Double.Finite 24) (Double.Finite 32, Double.Finite 24))
      = inr b
    ∧ FaceEyesNorm.eyes_angle a = Double.Finite (PI / 2)
    ∧ FaceEyesNorm.eyes_angle b = Double.Finite 0
    ∧ PyBobIpBaseFaceEyesNorm_RichCompare a (PyFaceEyesNormObject b) Py_EQ
      = Py_RETURN_FALSE.
Proof.
  assert (FaceEyesNorm.angle_to_horizontal
            (Double.Finite 16, Double.Finite 24)
            (Double.Finite 32, Double.Finite 24)
          = Double.Finite (PI / 2)) as Ha.
  { rewrite angle_finite. f_equal.
    replace (24 + - (24)) with 0 by lra. apply Ratan2_upright. lra. }
  eexists _, _.
  split; [rewrite init_keywords_eyes; reflexivity|].
  split; [reflexivity|]. split; [reflexivity|].
  split; [exact Ha|]. split; [reflexivity|].
  rewrite compare_eq, equal_angle_differs; [done|].
  change (Double.eqb
            (FaceEyesNorm.angle_to_horizontal
               (Double.Finite 16, Double.Finite 24)
               (Double.Finite 32, Double.Finite 24))
            (Double.Finite 0) = false).
  rewrite Ha. apply not_true_is_false. intros He%eqb_finite.
  pose proof PI_RGT_0. lra.
Qed.

(** The instance of the specification through the binding:
    [FaceEyesNorm(crop_size=(64, 64), right_eye=(16, 24), left_eye=(16, 40))]
    equals
    [FaceEyesNorm(crop_size=(64, 64), eyes_distance=16, eyes_center=(16, 32))]. *)
Lemma init_level_targets get_item :
  ∃ a b,
    PyBobIpBaseFaceEyesNorm_init get_item []
      (<["crop_size" := Samples.pair 64 64]>
         (<["right_eye" := Samples.pair 16 24]>
            (<["left_eye" := Samples.pair 16 40]> ∅))) = inr a
    ∧ PyBobIpBaseFaceEyesNorm_init get_item []
        (<["crop_size" := Samples.pair 64 64]>
           (<["eyes_distance" := PyLong 16]>
              (<["eyes_center" := Samples.pair 16 32]> ∅))) = inr b
    ∧ PyBobIpBaseFaceEyesNorm_RichCompare a (PyFaceEyesNormObject b) Py_EQ
      = Py_RETURN_TRUE.
Proof.
  eexists _, _.
  split; [rewrite init_keywords_eyes; reflexivity|].
  split; [rewrite init_keywords_distance; reflexivity|].
  rewrite compare_eq.
  assert (∀ x, x = true -> Py_Return (PyBool x) = Py_RETURN_TRUE) as Ht
    by (by intros ? ->).
  apply Ht, equal_configured. unfold FaceEyesNorm.configured_equal. simpl.
  change (round_half_even 16) with 16%Z.
  change (round_half_even 24) with 24%Z.
  change (round_half_even 40) with 40%Z.
  change (round_half_even 32) with 32%Z.
  change (Double.of_Z 16) with (Double.Finite 16).
  change (Double.of_Z 24) with (Double.Finite 24).
  change (Double.of_Z 40) with (Double.Finite 40).
  change (Double.of_Z 32) with (Double.Finite 32).
  rewrite distance_finite, (Rzerob_false 2) by lra.
  split; [done|]. split; [|split; [|split]].
  - apply eqb_finite.
    replace ((16 + - (16)) * (16 + - (16)) + (24 + - (40)) * (24 + - (40)))
      with (16 * 16) by lra.
    apply sqrt_square. lra.
  - apply (eqb_finite _ 0).
    replace (16 + - (16)) with 0 by lra. apply Ratan2_level. lra.
  - apply eqb_finite. lra.
  - apply eqb_finite. lra.
Qed.

End ConstructorExamples.

(** * WeightedGaussian: the setters *)

Section Setters.

Import WeightedGaussian.

(** C7: after each of the six setters of a radius or a sigma the retained
    kernel is the one computed from the parameters as they now are, the
    parameter set being the old one with the new value in its place;
    [setConvBorder] changes the border type only: the kernel and the four
    parameters stay, and a kernel that was out of date remains so. *)
Theorem setters_recompute_kernel :
  (∀ self v,
     parameters (setRadiusY self v)
     = (v, m_radius_x self, m_sigma_y self, m_sigma_x self)
     ∧ kernel_up_to_date (setRadiusY self v))
  ∧ (∀ self v,
       parameters (setRadiusX self v)
       = (m_radius_y self, v, m_sigma_y self, m_sigma_x self)
       ∧ kernel_up_to_date (setRadiusX self v))
  ∧ (∀ self v,
       parameters (setRadius self v)
       = (to_size_t v.1, to_size_t v.2, m_sigma_y self, m_sigma_x self)
       ∧ kernel_up_to_date (setRadius self v))
  ∧ (∀ self v,
       parameters (setSigmaY self v)
       = (m_radius_y self, m_radius_x self, v, m_sigma_x self)
       ∧ kernel_up_to_date (setSigmaY self v))
  ∧ (∀ self v,
       parameters (setSigmaX self v)
       = (m_radius_y self, m_radius_x self, m_sigma_y self, v)
       ∧ kernel_up_to_date (setSigmaX self v))
  ∧ (∀ self v,
       parameters (setSigma self v)
       = (m_radius_y self, m_radius_x self, v.1, v.2)
       ∧ kernel_up_to_date (setSigma self v))
  ∧ (∀ self b,
       getConvBorder (setConvBorder self b) = b
       ∧ parameters (setConvBorder self b) = parameters self
       ∧ getUnweightedKernel (setConvBorder self b) = getUnweightedKernel self
       ∧ (kernel_up_to_date (setConvBorder self b) <-> kernel_up_to_date self)).
Proof.
  repeat apply conj; intros self v; try done.
Qed.

(** C9, as stated, fails for the setters: [setSigmaY(-1)] on the default
    filter goes through and leaves the filter with sigma_y = -1. *)
Lemma setSigmaY_takes_negative_sigma :
  Double.leb (Double.Finite (-1)) Double.zero = true
  ∧ getSigmaY Samples.gaussian_default = Samples.sqrt2
  ∧ getSigmaY (setSigmaY Samples.gaussian_default (Double.Finite (-1)))
    = Double.Finite (-1)
  ∧ setSigmaY Samples.gaussian_default (Double.Finite (-1))
    ≠ Samples.gaussian_default.
Proof.
  split.
  { simpl. destruct (Rle_dec (-1) 0); [done|lra]. }
  split; [done|]. split; [done|].
  intros H. apply (f_equal getSigmaY) in H. simpl in H.
  injection H as H. pose proof (sqrt_pos 2). lra.
Qed.

(** The setters of the model are those of the header with the
    [computeKernel] of the specification, which throws nothing. *)
Lemma setSigma_computeKernel self s p :
  let computeKernel' := λ x, (computeKernel x, None) in
  Sigma.setSigmaY computeKernel' self s = (setSigmaY self s, None)
  ∧ Sigma.setSigmaX computeKernel' self s = (setSigmaX self s, None)
  ∧ Sigma.setSigma computeKernel' self p = (setSigma self p, None).
Proof. done. Qed.

Lemma leb_differ x y :
  Double.leb x Double.zero = true -> Double.leb y Double.zero = false ->
  x ≠ y.
Proof. intros Hx Hy ->. congruence. Qed.

(** C9, amended: a sigma setter does not check its argument.  It assigns
    the sigma it is given and then calls [computeKernel]: whatever
    [computeKernel] does, the outcome does not depend on the sigma that
    was configured before; and with a [computeKernel] that leaves the
    parameters alone, the instance holds the given non-positive sigma
    after the call, whether an exception was thrown or not, so that an
    instance with a positive sigma is never as it was. *)
Theorem nonpositive_sigma computeKernel' self s :
  Sigma.keeps_parameters computeKernel' ->
  Double.leb s Double.zero = true ->
  (∀ previous,
     Sigma.setSigmaY computeKernel' self s
     = Sigma.setSigmaY computeKernel'
         (with_sigma self previous (m_sigma_x self)) s
     ∧ Sigma.setSigmaX computeKernel' self s
       = Sigma.setSigmaX computeKernel'
           (with_sigma self (m_sigma_y self) previous) s)
  ∧ getSigmaY (Sigma.setSigmaY computeKernel' self s).1 = s
  ∧ getSigmaX (Sigma.setSigmaX computeKernel' self s).1 = s
  ∧ (∀ t, getSigmaY (Sigma.setSigma computeKernel' self (s, t)).1 = s
          ∧ getSigmaX (Sigma.setSigma computeKernel' self (t, s)).1 = s)
  ∧ (Double.leb (getSigmaY self) Double.zero = false ->
     (Sigma.setSigmaY computeKernel' self s).1 ≠ self
     ∧ ∀ t, (Sigma.setSigma computeKernel' self (s, t)).1 ≠ self)
  ∧ (Double.leb (getSigmaX self) Double.zero = false ->
     (Sigma.setSigmaX computeKernel' self s).1 ≠ self
     ∧ ∀ t, (Sigma.setSigma computeKernel' self (t, s)).1 ≠ self).
Proof.
  intros Hk Hs.
  assert (∀ x, getSigmaY (computeKernel' x).1 = m_sigma_y x
               ∧ getSigmaX (computeKernel' x).1 = m_sigma_x x) as Hg.
  { intros x. specialize (Hk x). unfold parameters in Hk.
    unfold getSigmaY, getSigmaX. by injection Hk as _ _ -> ->. }
  assert (∀ x, (computeKernel' x).1 = self -> m_sigma_y x = m_sigma_y self
               ∧ m_sigma_x x = m_sigma_x self) as Hself.
  { intros x Hx. destruct (Hg x) as [Hy Hx']. rewrite Hx in Hy, Hx'. done. }
  split; [done|].
  split; [apply Hg|]. split; [apply Hg|].
  split; [intros t; split; apply Hg|].
  split.
  - intros Hy.
    pose proof (leb_differ _ _ Hs Hy) as Hne.
    split; [|intros t]; intros [H _]%Hself; by apply Hne.
  - intros Hx.
    pose proof (leb_differ _ _ Hs Hx) as Hne.
    split; [|intros t]; intros [_ H]%Hself; by apply Hne.
Qed.

(** With a [computeKernel] that throws on a non-positive sigma,
    [setSigmaY(-1)] on the default filter ends in the exception and the
    filter holds sigma_y = -1 all the same. *)
Lemma nonpositive_sigma_witness :
  Sigma.keeps_parameters MoreSamples.strict_kernel
  ∧ Double.leb (Double.Finite (-1)) Double.zero = true
  ∧ (Sigma.setSigmaY MoreSamples.strict_kernel
       Samples.gaussian_default (Double.Finite (-1))).2
    = Some InvalidConfigurationError
  ∧ getSigmaY (Sigma.setSigmaY MoreSamples.strict_kernel
                 Samples.gaussian_default (Double.Finite (-1))).1
    = Double.Finite (-1).
Proof.
  assert (Sigma.keeps_parameters MoreSamples.strict_kernel) as Hk.
  { intros x. unfold MoreSamples.strict_kernel.
    destruct (_ || _); reflexivity. }
  assert (Double.leb (Double.Finite (-1)) Double.zero = true) as H.
  { simpl. destruct (Rle_dec (-1) 0); [done|lra]. }
  split; [exact Hk|]. split; [exact H|]. split.
  - unfold Sigma.setSigmaY, MoreSamples.strict_kernel.
    cbn [m_sigma_y with_sigma]. by rewrite H.
  - apply (nonpositive_sigma MoreSamples.strict_kernel
             Samples.gaussian_default (Double.Finite (-1)) Hk H).
Defined.

End Setters.

(** * WeightedGaussian: the 3D filter *)

Section Filter3.

Import WeightedGaussian.

Context {T : Type}.
Variable cast : T -> double.
Variable filter_ :
  t -> Array2 double -> Array2 double -> t * Array2 double * option cxx_exception.

Local Abbreviation filter2 := (filter cast filter_).
Local Abbreviation loop := (filter3_loop cast filter_).
Local Abbreviation each_plane := (filter_each_plane cast filter_).

(** The loop from plane [p] on: the planes before [p] stay, the planes
    from [p] on are filtered one after the other. *)
Lemma filter3_loop_planes n : ∀ p self (src : Array3 T) (dst : Array3 double),
  p + n = length dst ->
  length src = length dst ->
  loop n p self src dst
  = match each_plane self (drop p src) (drop p dst) with
    | (self', rest, e) => (self', take p dst ++ rest, e)
    end.
Proof.
  induction n as [|n IH]; intros p self src dst Hp Hlen.
  - rewrite !drop_ge by lia. simpl.
    rewrite take_ge by lia. by rewrite app_nil_r.
  - destruct (lookup_lt_is_Some_2 src p) as [s Hs]; [lia|].
    destruct (lookup_lt_is_Some_2 dst p) as [d Hd]; [lia|].
    rewrite (drop_S _ _ _ Hs), (drop_S _ _ _ Hd). simpl.
    rewrite Hs, Hd. simpl.
    destruct (filter2 self s d) as [[self' d'] [e|]].
    + by rewrite insert_take_drop by lia.
    + rewrite IH by (rewrite ?length_insert; lia).
      rewrite drop_insert_lt by lia.
      rewrite (take_S_r (<[p:=d']> dst) p d')
        by (apply list_lookup_insert_eq; lia).
      rewrite take_insert_ge by lia.
      destruct (each_plane self' (drop (S p) src) (drop (S p) dst))
        as [[self'' rest] e].
      by rewrite <- app_assoc.
Qed.

(** Plane by plane: when no 2D call throws, every plane of the output is
    what the 2D filter returned for the plane of the input at that place
    and the plane of the output as it was. *)
Lemma filter_each_plane_planes :
  ∀ (src : Array3 T) (dst out : Array3 double) self self',
  length src = length dst ->
  each_plane self src dst = (self', out, None) ->
  length out = length dst
  ∧ ∀ p s d, src !! p = Some s -> dst !! p = Some d ->
      ∃ w w' o, filter2 w s d = (w', o, None) ∧ out !! p = Some o.
Proof.
  induction src as [|s0 src IH]; intros [|d0 dst] out self self' Hlen;
    simpl in *; try discriminate.
  - intros [= <- <-]. split; [done|]. intros p s d Hs. by destruct p.
  - destruct (filter2 self s0 d0) as [[w1 d1] [e|]] eqn:Hf; [discriminate|].
    destruct (each_plane w1 src dst) as [[w2 out'] e] eqn:He.
    intros [= <- <- ->].
    destruct (IH dst out' w1 w2 ltac:(lia) He) as [Hl Hp].
    split; [simpl; lia|].
    intros [|p] s d; simpl.
    + intros [= <-] [= <-]. eauto.
    + apply Hp.
Qed.

(** C8: with different plane counts the 3D filter throws before it
    touches a plane, and leaves the output and the instance as they were;
    with equal plane counts it does what applying the 2D filter to each
    plane in turn does, and, when no 2D call throws, plane [p] of the
    output is the result of the 2D filter on plane [p] of the input. *)
Theorem filter3_plane_by_plane self (src : Array3 T) (dst : Array3 double) :
  (length src ≠ length dst ->
   filter3 cast filter_ self src dst = (self, dst, Some ShapeMismatchError))
  ∧ (length src = length dst ->
     filter3 cast filter_ self src dst = each_plane self src dst
     ∧ ∀ self' out,
         filter3 cast filter_ self src dst = (self', out, None) ->
         length out = length dst
         ∧ ∀ p s d, src !! p = Some s -> dst !! p = Some d ->
             ∃ w w' o, filter2 w s d = (w', o, None) ∧ out !! p = Some o).
Proof.
  unfold filter3, assertSameDimensionLength. split; intros Hlen.
  - by destruct (decide (length src = length dst)).
  - destruct (decide (length src = length dst)); [|done].
    assert (loop (length dst) 0 self src dst = each_plane self src dst) as ->.
    { rewrite (filter3_loop_planes (length dst) 0 self src dst) by done.
      rewrite !drop_0. simpl.
      by destruct (each_plane self src dst) as [[? ?] ?]. }
    split; [done|]. intros self' out He.
    by apply (filter_each_plane_planes src dst out self self').
Qed.

End Filter3.

Section Filter3Witness.

Import WeightedGaussian.

(** A stack of two 1x2 planes of integers, copied plane by plane into a
    stack of two planes, and refused by a stack of one. *)
Lemma filter3_plane_by_plane_witness :
  filter3 Double.of_Z Samples.copy_filter Samples.gaussian_default
    [[[1; 2]]; [[3; 4]]]%Z [[[Double.zero; Double.zero]]; []]
  = (Samples.gaussian_default,
     [[[Double.of_Z 1; Double.of_Z 2]]; [[Double.of_Z 3; Double.of_Z 4]]],
     None)
  ∧ filter3 Double.of_Z Samples.copy_filter Samples.gaussian_default
      [[[1; 2]]; [[3; 4]]]%Z [[[Double.zero; Double.zero]]]
    = (Samples.gaussian_default, [[[Double.zero; Double.zero]]],
       Some ShapeMismatchError).
Proof.
  split.
  - destruct (filter3_plane_by_plane Double.of_Z Samples.copy_filter
                Samples.gaussian_default
                [[[1; 2]]; [[3; 4]]]%Z [[[Double.zero; Double.zero]]; []])
      as [_ H].
    destruct (H eq_refl) as [-> _]. reflexivity.
  - destruct (filter3_plane_by_plane Double.of_Z Samples.copy_filter
                Samples.gaussian_default
                [[[1; 2]]; [[3; 4]]]%Z [[[Double.zero; Double.zero]]])
      as [H _].
    apply H. simpl. lia.
Defined.

End Filter3Witness.

(** * WeightedGaussian: the kernel *)

Section Kernel.

Import WeightedGaussian.
Local Open Scope R_scope.

Lemma gaussian_finite sy sx i j :
  sy <> 0 -> sx <> 0 ->
  gaussian (Double.Finite sy) (Double.Finite sx) i j
  = Double.Finite (gaussianR sy sx i j).
Proof.
  intros Hy Hx. unfold gaussian, gaussianR. simpl.
  rewrite !Rzerob_false; [done| |].
  - intros H. apply Rmult_integral in H as [H|H]; [lra|].
    apply Rmult_integral in H as [H|H]; done.
  - intros H. apply Rmult_integral in H as [H|H]; [lra|].
    apply Rmult_integral in H as [H|H]; done.
Qed.

Lemma sum_finite (l : list R) :
  sum (Double.Finite <$> l) = Double.Finite (sumR l).
Proof.
  induction l as [|r l IH]; [done|].
  change (sum (Double.Finite <$> r :: l))
    with (Double.add (Double.Finite r) (sum (Double.Finite <$> l))).
  by rewrite IH.
Qed.

Lemma concat_finite (g : list (list R)) :
  concat ((λ row : list R, Double.Finite <$> row) <$> g)
  = Double.Finite <$> concat g.
Proof.
  induction g as [|row g IH]; [done|].
  rewrite fmap_cons, !concat_cons, IH. by rewrite fmap_app.
Qed.

Lemma grid_sum_finite (g : list (list R)) :
  grid_sum ((λ row : list R, Double.Finite <$> row) <$> g)
  = Double.Finite (sumR (concat g)).
Proof. unfold grid_sum. by rewrite concat_finite, sum_finite. Qed.

Lemma sumR_scale (c : R) (l : list R) :
  sumR ((λ r, r / c) <$> l) = sumR l / c.
Proof.
  unfold sumR. induction l as [|r l IH].
  - simpl. unfold Rdiv. ring.
  - rewrite fmap_cons. cbn [foldr]. rewrite IH. unfold Rdiv. ring.
Qed.

Lemma concat_scale (c : R) (g : list (list R)) :
  concat ((λ row : list R, (λ r, r / c) <$> row) <$> g)
  = (λ r, r / c) <$> concat g.
Proof.
  induction g as [|row g IH]; [done|].
  rewrite fmap_cons, !concat_cons, IH. by rewrite fmap_app.
Qed.

Lemma sumR_positive (l : list R) :
  l <> [] -> Forall (λ r, 0 < r) l -> 0 < sumR l.
Proof.
  intros Hne Hall. destruct l as [|r l]; [done|].
  clear Hne. revert r Hall. unfold sumR.
  induction l as [|r' l IH]; intros r Hall; simpl.
  - apply Forall_inv in Hall. lra.
  - pose proof (Forall_inv Hall) as Hr.
    apply Forall_inv_tail in Hall. specialize (IH r' Hall). simpl in IH.
    lra.
Qed.

Lemma offsets_length radius :
  length (offsets radius) = Z.to_nat (2 * radius + 1).
Proof. apply length_seqZ. Qed.

Lemma offsets_nonempty radius : (0 <= radius)%Z -> offsets radius <> [].
Proof.
  intros H Hnil. apply (f_equal length) in Hnil.
  rewrite offsets_length in Hnil. simpl in Hnil. lia.
Qed.

Lemma offsets_lookup radius i :
  (- radius <= i <= radius)%Z ->
  offsets radius !! Z.to_nat (i + radius) = Some i.
Proof.
  intros H. unfold offsets. rewrite lookup_seqZ_lt by lia. f_equal. lia.
Qed.

Lemma rawR_positive radius_y radius_x sy sx :
  (0 <= radius_y)%Z -> (0 <= radius_x)%Z ->
  0 < sumR (concat (rawR radius_y radius_x sy sx)).
Proof.
  intros Hy Hx. apply sumR_positive.
  - unfold rawR.
    destruct (offsets radius_y) as [|i is_] eqn:Ey;
      [by apply offsets_nonempty in Ey|].
    destruct (offsets radius_x) as [|j js] eqn:Ex;
      [by apply offsets_nonempty in Ex|].
    done.
  - apply Forall_concat, Forall_fmap, Forall_forall. intros i _. simpl.
    apply Forall_fmap, Forall_forall. intros j _. simpl.
    apply exp_pos.
Qed.

(** A kernel of finite positive sigmas, entry by entry. *)
Lemma gaussian_kernel_finite radius_y radius_x sy sx :
  (0 <= radius_y)%Z -> (0 <= radius_x)%Z -> sy <> 0 -> sx <> 0 ->
  gaussian_kernel radius_y radius_x (Double.Finite sy) (Double.Finite sx)
  = (λ row : list R, Double.Finite <$> row)
      <$> ((λ row : list R,
              (λ r, r / sumR (concat (rawR radius_y radius_x sy sx))) <$> row)
             <$> rawR radius_y radius_x sy sx).
Proof.
  intros Hy Hx Hsy Hsx. unfold gaussian_kernel.
  assert ((λ i, gaussian (Double.Finite sy) (Double.Finite sx) i
                  <$> offsets radius_x) <$> offsets radius_y
          = (λ row : list R, Double.Finite <$> row)
              <$> rawR radius_y radius_x sy sx) as ->.
  { unfold rawR. rewrite <- list_fmap_compose. apply list_fmap_ext.
    intros _ i _. simpl. rewrite <- list_fmap_compose. apply list_fmap_ext.
    intros _ j _. simpl. by apply gaussian_finite. }
  rewrite grid_sum_finite.
  pose proof (rawR_positive radius_y radius_x sy sx Hy Hx) as Hpos.
  rewrite <- !list_fmap_compose. apply list_fmap_ext.
  intros _ row _. simpl. rewrite <- !list_fmap_compose. apply list_fmap_ext.
  intros _ r _. simpl. by rewrite Rzerob_false by lra.
Qed.

End Kernel.

Section KernelClaim.

Import WeightedGaussian.
Local Open Scope R_scope.

(** C4: for radii that are not negative and finite positive sigmas, the
    kernel that [computeKernel] retains has [2*radius_y+1] rows of
    [2*radius_x+1] entries, its entry at the offset [(i, j)] is a positive
    constant times [exp(-(i^2/(2 sigma_y^2) + j^2/(2 sigma_x^2)))], and its
    entries sum to 1 (exactly, finite values being exact here, hence within
    1e-9). *)
Theorem kernel_normalised self (sy sx : R) :
  (0 <= m_radius_y self)%Z ->
  (0 <= m_radius_x self)%Z ->
  m_sigma_y self = Double.Finite sy -> 0 < sy ->
  m_sigma_x self = Double.Finite sx -> 0 < sx ->
  let k := getUnweightedKernel (computeKernel self) in
  length k = Z.to_nat (2 * m_radius_y self + 1)
  ∧ Forall (λ row, length row = Z.to_nat (2 * m_radius_x self + 1)) k
  ∧ (∃ c, 0 < c
        ∧ ∀ i j,
            (- m_radius_y self <= i <= m_radius_y self)%Z ->
            (- m_radius_x self <= j <= m_radius_x self)%Z ->
            entry k (m_radius_y self) (m_radius_x self) i j
            = Some (Double.Finite (c * gaussianR sy sx i j)))
  ∧ grid_sum k = Double.Finite 1
  ∧ ∃ total, grid_sum k = Double.Finite total ∧ Rabs (total - 1) <= 1 / 10 ^ 9.
Proof.
  intros Hry Hrx Hsy Hy Hsx Hx k. subst k.
  unfold getUnweightedKernel, computeKernel. simpl.
  rewrite Hsy, Hsx.
  rewrite gaussian_kernel_finite by (done || lra).
  pose proof (rawR_positive (m_radius_y self) (m_radius_x self) sy sx Hry Hrx)
    as Hpos.
  set (total := sumR (concat (rawR (m_radius_y self) (m_radius_x self) sy sx)))
    in *.
  assert (grid_sum
            ((λ row : list R, Double.Finite <$> row)
               <$> ((λ row : list R, (λ r, r / total) <$> row)
                      <$> rawR (m_radius_y self) (m_radius_x self) sy sx))
          = Double.Finite 1) as Hsum.
  { rewrite grid_sum_finite, concat_scale, sumR_scale. f_equal.
    fold total. field. lra. }
  split; [|split; [|split; [|split]]].
  - unfold rawR. by rewrite !length_fmap, offsets_length.
  - unfold rawR. apply Forall_fmap, Forall_fmap, Forall_fmap, Forall_forall.
    intros i _. simpl. by rewrite !length_fmap, offsets_length.
  - exists (/ total). split; [by apply Rinv_0_lt_compat|].
    intros i j Hi Hj. unfold entry, rawR.
    rewrite !list_lookup_fmap, offsets_lookup by done. simpl.
    rewrite !list_lookup_fmap, offsets_lookup by done. simpl.
    do 2 f_equal. unfold Rdiv. apply Rmult_comm.
  - exact Hsum.
  - exists 1. split; [exact Hsum|].
    replace (1 - 1) with 0 by lra. rewrite Rabs_R0.
    apply Rlt_le, Rdiv_lt_0_compat; lra.
Qed.

(** The default filter: radius (1, 1) and sigma (sqrt 2, sqrt 2) give a 3x3
    kernel that sums to 1. *)
Lemma kernel_normalised_witness :
  length (getUnweightedKernel Samples.gaussian_default) = 3%nat
  ∧ Forall (λ row, length row = 3%nat)
      (getUnweightedKernel Samples.gaussian_default)
  ∧ grid_sum (getUnweightedKernel Samples.gaussian_default) = Double.Finite 1.
Proof.
  assert (0 < sqrt 2) as Hs by (apply sqrt_lt_R0; lra).
  destruct (kernel_normalised
              (mk 1 1 Samples.sqrt2 Samples.sqrt2 Mirror [] [] [] [])
              (sqrt 2) (sqrt 2))
    as (Hl & Hr & _ & Hsum & _);
    [simpl; lia|simpl; lia|reflexivity|exact Hs|reflexivity|exact Hs|].
  split; [exact Hl|]. split; [exact Hr|exact Hsum].
Defined.

End KernelClaim.

(** * Further properties of [extract] *)

Section ExtractFurther.

Import Py Binding Heap.

Variable GeomNorm_process :
  FaceEyesNorm.TransformParameters ->
  PyBlitzArrayObject -> option PyBlitzArrayObject ->
  PyBlitzArrayObject -> option PyBlitzArrayObject ->
  cxx_result (list double * option (list double)).

Local Abbreviation extract := (PyBobIpBaseFaceEyesNorm_extract GeomNorm_process).
Local Abbreviation inner := (extract_inner GeomNorm_process).

(** The body of [extract] on locals that hold an output: an error of the
    binding's own checks, or, all of them passed, the outcome of
    [extract_inner]. *)
Lemma extract_body_with_output h self nargs a out :
  output a = Some out ->
  (∃ err, (∀ e, err ≠ CxxError e)
          ∧ extract_body GeomNorm_process h self nargs a = (Py_NULL err, h, self))
  ∨ (ndim (input a).2 = 2 ∧ buffers_accepted a = true
     ∧ supported (type_num (input a).2) = true
     ∧ extract_body GeomNorm_process h self nargs a =
       match inner h self (input a) (input_mask a) out (output_mask a)
               (right_eye a) (left_eye a) with
       | (self', inl e) => (Py_NULL (CxxError e), h, self')
       | (self', inr h2) =>
           if bool_decide (nargs = 3)
           then (Py_Return (PyArray out.1), h2, self')
           else (Py_RETURN_NONE, h2, self')
       end).
Proof.
  intros Hout. unfold extract_body. rewrite Hout. cbv zeta.
  assert (∀ ret : PyReturn * heap * FaceEyesNorm.t,
            ∀ msg, ret = (Py_NULL (PyExc_TypeError msg), h, self) ->
            ∃ err, (∀ e, err ≠ CxxError e) ∧ ret = (Py_NULL err, h, self))
    as Hown by (intros ret msg ->; eexists; split; [|done]; done).
  case_bool_decide as H1; [left; by eapply Hown|].
  case_bool_decide as H2; [left; by eapply Hown|].
  case_bool_decide as H3; [left; by eapply Hown|].
  assert (output_accepted a = true) as Ho.
  { unfold output_accepted. rewrite Hout.
    by rewrite !bool_decide_eq_true_2. }
  destruct (input_mask a) as [im|] eqn:Him, (output_mask a) as [om|] eqn:Hom.
  2-4: assert (buffers_accepted a = true) as Hb
         by (unfold buffers_accepted, masks_accepted;
             rewrite Ho, ?Him, ?Hom; done);
       (destruct (supported _) eqn:Hs;
        [right; repeat split; done|left; by eapply Hown]).
  destruct (bool_decide (ndim im.2 ≠ 2)) eqn:M1; [left; by eapply Hown|].
  destruct (bool_decide (ndim om.2 ≠ 2)) eqn:M2; [left; by eapply Hown|].
  destruct (bool_decide (type_num im.2 ≠ NPY_BOOL)) eqn:M3;
    [left; by eapply Hown|].
  destruct (bool_decide (type_num om.2 ≠ NPY_BOOL)) eqn:M4;
    [left; by eapply Hown|].
  apply bool_decide_eq_false in M1, M2, M3, M4.
  apply dec_stable in M1, M2, M3, M4.
  assert (buffers_accepted a = true) as Hb.
  { unfold buffers_accepted, masks_accepted. rewrite Ho, Him, Hom.
    by rewrite !bool_decide_eq_true_2. }
  cbn [orb].
  destruct (supported _) eqn:Hs;
    [right; repeat split; done|left; by eapply Hown].
Qed.

(** A call of [extract] in full: what its arguments parse to decides. *)
Lemma extract_cases h self args kwargs :
  (∃ err, (∀ e, err ≠ CxxError e)
          ∧ extract h self args kwargs = (Py_NULL err, h, self))
  ∨ (∃ a out,
       parse_arguments h args kwargs = inr a ∧ output a = Some out
       ∧ locals_in_heap h a ∧ passes_checks h args kwargs
       ∧ extract h self args kwargs =
         match inner h self (input a) (input_mask a) out (output_mask a)
                 (right_eye a) (left_eye a) with
         | (self', inl e) => (Py_NULL (CxxError e), h, self')
         | (self', inr h2) => (Py_RETURN_NONE, h2, self')
         end).
Proof.
  unfold PyBobIpBaseFaceEyesNorm_extract.
  destruct (parse_arguments h args kwargs) as [err|a] eqn:Hp.
  - left. exists err. split; [|done].
    unfold parse_arguments in Hp.
    repeat (case_match; try discriminate); by injection Hp as <-.
  - pose proof Hp as Hcount.
    apply parse_arguments_inr in Hcount.
    destruct (parse_arguments_locals h args kwargs a Hp)
      as (Hn & [out Hout] & Hl).
    destruct (extract_body_with_output h self (count_arguments args kwargs)
                a out Hout) as [?|(H1 & H2 & H3 & ->)]; [by left|].
    right. exists a, out.
    split; [done|]. split; [done|]. split; [done|]. split.
    + exists a. split; [done|]. split; [|done].
      destruct Hcount as [[? _]|[? _]]; eauto.
    + destruct (inner _ _ _ _ _ _ _ _) as [s' [e|h2]]; [done|].
      by rewrite bool_decide_eq_false_2.
Qed.

(** X2: [extract] returns nothing but [None], and that only for a call
    that passes every check of the binding; so does a call that ends in a
    C++ exception; every other failure leaves the arrays and the instance
    as they were.  No call returns an image. *)
Theorem extract_outcomes h self args kwargs :
  match extract h self args kwargs with
  | (Py_Return o, _, _) => o = PyNone ∧ passes_checks h args kwargs
  | (Py_NULL (CxxError e), _, _) => passes_checks h args kwargs
  | (Py_NULL _, h', self') => h' = h ∧ self' = self
  end.
Proof.
  destruct (extract_cases h self args kwargs)
    as [(err & Herr & ->)|(a & out & Hp & Hout & Hl & Hpass & ->)].
  - destruct err; try done. by destruct (Herr e).
  - by destruct (inner _ _ _ _ _ _ _ _) as [s' [e|h2]].
Qed.

End ExtractFurther.

(** * Calls by keyword *)

Section Keywords.

Import Py Binding.

Lemma bind_arguments_objects kwlist args (kwargs : gmap string PyObject) objs :
  bind_arguments kwlist args kwargs = Some objs ->
  length objs = length kwlist.
Proof.
  revert args kwargs objs.
  induction kwlist as [|k kwlist IH]; intros args kwargs objs; simpl.
  - destruct args; [|discriminate].
    destruct (decide _); [|discriminate]. by intros [= <-].
  - destruct args as [|a args].
    + destruct (kwargs !! k); [|discriminate].
      destruct (bind_arguments _ _ _) eqn:Hb; [|discriminate].
      intros [= <-]. simpl. f_equal. eauto.
    + destruct (kwargs !! k); [discriminate|].
      destruct (bind_arguments _ _ _) eqn:Hb; [|discriminate].
      intros [= <-]. simpl. f_equal. eauto.
Qed.

(** Arguments given in the order of [kwlist], none by keyword, are bound as
    they come. *)
Lemma bind_arguments_positional kwlist objs :
  length objs = length kwlist ->
  bind_arguments kwlist objs (∅ : gmap string PyObject) = Some objs.
Proof.
  revert objs. induction kwlist as [|k kwlist IH]; intros [|o objs] Hlen;
    try discriminate; simpl.
  - by rewrite map_size_empty.
  - rewrite lookup_empty, IH by (simpl in Hlen; lia). done.
Qed.

(** The names under which a call without positional arguments passes its
    arguments. *)
Lemma bind_arguments_names kwlist (kwargs : gmap string PyObject) objs :
  bind_arguments kwlist [] kwargs = Some objs ->
  dom kwargs = list_to_set kwlist.
Proof.
  revert kwargs objs.
  induction kwlist as [|k kwlist IH]; intros kwargs objs; simpl.
  - destruct (decide (size kwargs = 0)) as [Hz|]; [|discriminate].
    intros _. apply map_size_empty_inv in Hz. subst. by rewrite dom_empty_L.
  - destruct (kwargs !! k) as [v|] eqn:Hk; [|discriminate].
    destruct (bind_arguments kwlist [] (delete k kwargs)) as [l|] eqn:Hb;
      [|discriminate].
    intros _. apply IH in Hb. rewrite dom_delete_L in Hb.
    rewrite <- Hb. apply set_eq. intros x.
    rewrite elem_of_union, elem_of_difference, elem_of_singleton.
    split.
    + intros Hx. destruct (decide (x = k)); [by left|by right].
    + intros [->|[? _]]; [|done]. apply elem_of_dom. eauto.
Qed.

Variable GeomNorm_process :
  FaceEyesNorm.TransformParameters ->
  PyBlitzArrayObject -> option PyBlitzArrayObject ->
  PyBlitzArrayObject -> option PyBlitzArrayObject ->
  cxx_result (list double * option (list double)).

(** X3: a call of [extract] that passes some of its four or six arguments
    by keyword does what the call with the same objects in the documented
    order, all positional, does. *)
Theorem extract_by_keyword h self args kwargs objs :
  bind_arguments kwlist2 args kwargs = Some objs
  ∨ bind_arguments kwlist3 args kwargs = Some objs ->
  PyBobIpBaseFaceEyesNorm_extract GeomNorm_process h self args kwargs
  = PyBobIpBaseFaceEyesNorm_extract GeomNorm_process h self objs ∅.
Proof.
  intros Hb.
  assert (count_arguments objs ∅ = length objs) as Hc
    by (unfold count_arguments; rewrite map_size_empty; lia).
  unfold PyBobIpBaseFaceEyesNorm_extract, parse_arguments.
  destruct Hb as [Hb|Hb];
    pose proof (bind_arguments_count _ _ _ _ Hb) as Hn;
    pose proof (bind_arguments_objects _ _ _ _ Hb) as Hl;
    rewrite Hc, Hl, Hn; simpl length.
  - unfold parse2. by rewrite Hb, bind_arguments_positional.
  - unfold parse3. by rewrite Hb, bind_arguments_positional.
Qed.

End Keywords.

Section KeywordsWitness.

Import Py Binding.

(** [extract(image, output=buffer, left_eye=(1, 1), right_eye=(1, 0))]
    against [extract(image, buffer, (1, 0), (1, 1))]. *)
Lemma extract_by_keyword_witness :
  PyBobIpBaseFaceEyesNorm_extract Samples.keep_output
    Samples.heap_uint8 Samples.face [PyArray 0]
    (<["output" := PyArray 1]>
       (<["left_eye" := Samples.pair 1 1]>
          (<["right_eye" := Samples.pair 1 0]> ∅)))
  = PyBobIpBaseFaceEyesNorm_extract Samples.keep_output
      Samples.heap_uint8 Samples.face
      [PyArray 0; PyArray 1; Samples.pair 1 0; Samples.pair 1 1] ∅.
Proof.
  apply extract_by_keyword. left. vm_compute. reflexivity.
Defined.

End KeywordsWitness.

(** * Further properties of the constructor and of the comparison *)

Section InitFurther.

Import Py Binding.

(** X4: what [PyList_GET_ITEM] reads from the tuple of positional
    arguments matters to the constructor only in a call with three
    arguments, at least two of them positional and none named [right_eye],
    and there only through [PySequence_Check]; every other call, a call by
    keyword in particular, does the same whatever is read. *)
Theorem init_reads_positional_item get_item1 get_item2 args kwargs :
  count_arguments args kwargs ≠ 3
  ∨ length args <= 1
  ∨ is_Some (kwargs !! "right_eye")
  ∨ PySequence_Check (get_item1 args 1) = PySequence_Check (get_item2 args 1) ->
  PyBobIpBaseFaceEyesNorm_init get_item1 args kwargs
  = PyBobIpBaseFaceEyesNorm_init get_item2 args kwargs.
Proof.
  intros H. unfold PyBobIpBaseFaceEyesNorm_init.
  destruct (count_arguments args kwargs) as [|[|[|[|n]]]] eqn:Hn; try done.
  destruct H as [H|[H|[H|H]]].
  - done.
  - by rewrite (bool_decide_eq_false_2 (1 < length args)) by lia.
  - rewrite (bool_decide_eq_true_2 (is_Some (kwargs !! "right_eye"))) by done.
    by rewrite !orb_true_r.
  - by rewrite H.
Qed.

(** [FaceEyesNorm((64, 64), right_eye=(16, 24), left_eye=(16, 40))], with
    the item of the tuple read and with nothing read. *)
Lemma init_reads_positional_item_witness :
  PyBobIpBaseFaceEyesNorm_init Samples.item [Samples.pair 64 64]
    (<["right_eye" := Samples.pair 16 24]>
       (<["left_eye" := Samples.pair 16 40]> ∅))
  = PyBobIpBaseFaceEyesNorm_init (λ _ _, PyNone) [Samples.pair 64 64]
      (<["right_eye" := Samples.pair 16 24]>
         (<["left_eye" := Samples.pair 16 40]> ∅)).
Proof.
  apply init_reads_positional_item. right. left. simpl. lia.
Defined.

(** X5: the constructor succeeds only on one or on three arguments, and a
    call that passes all of them by keyword succeeds only when the keywords
    are exactly those of one of the three documented prototypes. *)
Theorem init_takes_documented_arguments get_item args kwargs x :
  PyBobIpBaseFaceEyesNorm_init get_item args kwargs = inr x ->
  (count_arguments args kwargs = 1 ∨ count_arguments args kwargs = 3)
  ∧ (args = [] ->
     dom kwargs = list_to_set kwlist_init1
     ∨ dom kwargs = list_to_set kwlist_init2
     ∨ dom kwargs = list_to_set kwlist_init3).
Proof.
  unfold PyBobIpBaseFaceEyesNorm_init.
  destruct (count_arguments args kwargs) as [|[|[|[|n]]]] eqn:Hn;
    try discriminate.
  - destruct (bind_arguments kwlist_init3 args kwargs) as [l|] eqn:Hb;
      [|discriminate].
    intros _. split; [by left|]. intros ->.
    right. right. by eapply bind_arguments_names.
  - destruct (_ || _).
    + destruct (bind_arguments kwlist_init2 args kwargs) as [l|] eqn:Hb;
        [|discriminate].
      intros _. split; [by right|]. intros ->.
      right. left. by eapply bind_arguments_names.
    + destruct (bind_arguments kwlist_init1 args kwargs) as [l|] eqn:Hb;
        [|discriminate].
      intros _. split; [by right|]. intros ->.
      left. by eapply bind_arguments_names.
Qed.

(** [FaceEyesNorm(crop_size=(64, 64), right_eye=(16, 24), left_eye=(16, 40))]. *)
Lemma init_takes_documented_arguments_witness :
  ∃ x,
    PyBobIpBaseFaceEyesNorm_init Samples.item []
      (<["crop_size" := Samples.pair 64 64]>
         (<["right_eye" := Samples.pair 16 24]>
            (<["left_eye" := Samples.pair 16 40]> ∅))) = inr x
    ∧ dom (<["crop_size" := Samples.pair 64 64]>
             (<["right_eye" := Samples.pair 16 24]>
                (<["left_eye" := Samples.pair 16 40]> (∅ : gmap string PyObject))))
      = list_to_set kwlist_init2.
Proof.
  eexists. split; [rewrite init_keywords_eyes; reflexivity|].
  edestruct (init_takes_documented_arguments Samples.item []
               (<["crop_size" := Samples.pair 64 64]>
                  (<["right_eye" := Samples.pair 16 24]>
                     (<["left_eye" := Samples.pair 16 40]> ∅))))
    as [_ H]; [rewrite init_keywords_eyes; reflexivity|].
  destruct (H eq_refl) as [H'|[H'|H']]; [|exact H'|].
  - exfalso. apply (f_equal (λ s : gset string, bool_decide ("right_eye" ∈ s))) in H'.
    vm_compute in H'. discriminate.
  - exfalso. apply (f_equal (λ s : gset string, bool_decide ("right_eye" ∈ s))) in H'.
    vm_compute in H'. discriminate.
Defined.

(** X6: between two instances only [==] and [!=] have an answer: every
    ordering comparison returns [NotImplemented], a truth value is returned
    for [==] and [!=] alone, and the two are opposite. *)
Theorem compare_orderings_not_implemented :
  (∀ self other op,
     op ≠ Py_EQ -> op ≠ Py_NE ->
     PyBobIpBaseFaceEyesNorm_RichCompare self (PyFaceEyesNormObject other) op
     = Py_Return PyNotImplemented)
  ∧ (∀ self other op b,
       PyBobIpBaseFaceEyesNorm_RichCompare self other op = Py_Return (PyBool b) ->
       PyBobIpBaseFaceEyesNorm_Check other = true ∧ (op = Py_EQ ∨ op = Py_NE))
  ∧ (∀ self other b,
       PyBobIpBaseFaceEyesNorm_RichCompare self other Py_EQ = Py_Return (PyBool b)
       <-> PyBobIpBaseFaceEyesNorm_RichCompare self other Py_NE
           = Py_Return (PyBool (negb b))).
Proof.
  repeat apply conj.
  - intros self other op H1 H2. unfold PyBobIpBaseFaceEyesNorm_RichCompare.
    simpl. by destruct op.
  - intros self other op b. unfold PyBobIpBaseFaceEyesNorm_RichCompare.
    destruct other; simpl; try discriminate.
    destruct op; try discriminate; eauto.
  - intros self other b. unfold PyBobIpBaseFaceEyesNorm_RichCompare.
    destruct other; simpl; try (split; discriminate).
    destruct (FaceEyesNorm.equal self cxx), b; simpl; split;
      (done || discriminate).
Qed.

End InitFurther.

(** * The conversion of integers *)

Section Integers.

Import Py.
Local Open Scope Z_scope.

(** An integer of at most 53 bits is converted as it is. *)
Lemma PyLong_AsDouble_exact z :
  Z.abs z < 2 ^ 53 -> PyLong_AsDouble z = Some (Double.of_Z z).
Proof.
  intros Hz.
  assert (Z.log2 (Z.abs z) < 53) as Hl.
  { destruct (decide (Z.abs z = 0)) as [->|Hne]; [done|].
    apply Z.log2_lt_pow2; lia. }
  unfold PyLong_AsDouble, round_half_even. cbv zeta.
  rewrite (proj2 (Z.leb_le _ _)) by lia.
  by rewrite (proj2 (Z.ltb_lt _ _)) by lia.
Qed.

(** The magnitude of a longer integer after the rounding: its 53 leading
    bits, or the next integer of 53 bits, at the place of the leading bits. *)
Lemma round_half_even_abs z :
  let a := Z.abs z in
  let s := Z.log2 a - 52 in
  0 < s ->
  let q := a / 2 ^ s in
  let r := a mod 2 ^ s in
  let up := (2 ^ (s - 1) <? r) || ((r =? 2 ^ (s - 1)) && Z.odd q) in
  Z.abs (round_half_even z) = (if up then q + 1 else q) * 2 ^ s
  ∧ 2 ^ 52 <= q < 2 ^ 53.
Proof.
  intros a s Hs q r up.
  assert (0 < a) as Ha.
  { destruct (decide (a = 0)) as [E|E]; [|lia].
    subst s. rewrite E in Hs. cbn in Hs. lia. }
  pose proof (Z.log2_spec a Ha) as [Hlo Hhi].
  assert (Z.log2 a = 52 + s) as Hl by lia.
  rewrite Hl in Hlo. replace (Z.succ (Z.log2 a)) with (53 + s) in Hhi by lia.
  rewrite Z.pow_add_r in Hlo, Hhi by lia.
  assert (0 < 2 ^ s) as HP by (apply Z.pow_pos_nonneg; lia).
  assert (2 ^ 52 <= q < 2 ^ 53) as Hq.
  { subst q. split.
    - apply Z.div_le_lower_bound; lia.
    - apply Z.div_lt_upper_bound; lia. }
  split; [|exact Hq].
  unfold round_half_even. fold a. cbv zeta.
  replace (Z.log2 a + 1 - 53) with s by lia.
  rewrite (proj2 (Z.leb_gt _ _)) by lia.
  rewrite Z.shiftr_div_pow2, Z.land_ones, !Z.shiftl_mul_pow2 by lia.
  rewrite Z.mul_1_l. fold q r. fold up.
  rewrite Z.abs_mul.
  assert (Z.abs (Z.sgn z) = 1) as -> by (subst a; lia).
  assert (0 <= (if up then q + 1 else q) * 2 ^ s) by (destruct up; nia).
  lia.
Qed.

Lemma log2_53_bits q : 2 ^ 52 <= q < 2 ^ 53 -> Z.log2 q = 52.
Proof. intros H. apply Z.log2_unique; [lia|]. exact H. Qed.

(** The integers that [PyLong_AsDouble] refuses: those from
    [2^1024 - 2^970] on, the first to round to [2^1024], and their
    negatives. *)
Lemma PyLong_AsDouble_overflow z :
  PyLong_AsDouble z = None <-> 2 ^ 1024 - 2 ^ 970 <= Z.abs z.
Proof.
  assert (PyLong_AsDouble z = None
          <-> 1024 <= Z.log2 (Z.abs (round_half_even z))) as ->.
  { unfold PyLong_AsDouble. cbv zeta.
    destruct (Z.ltb_spec (Z.log2 (Z.abs (round_half_even z))) 1024);
      split; (done || lia). }
  destruct (Z_lt_le_dec (Z.abs z) (2 ^ 53)) as [Hsmall|Hbig].
  - assert (Z.log2 (Z.abs z) < 53) as Hl.
    { destruct (decide (Z.abs z = 0)) as [->|Hne]; [reflexivity|].
      apply Z.log2_lt_pow2; lia. }
    unfold round_half_even. cbv zeta.
    rewrite (proj2 (Z.leb_le _ _)) by lia.
    split; [lia|].
    assert (2 ^ 53 < 2 ^ 1024 - 2 ^ 970) by (vm_compute; reflexivity).
    lia.
  - assert (0 < Z.abs z) as Ha by lia.
    assert (53 <= Z.log2 (Z.abs z)) as Hl by (apply Z.log2_le_pow2; lia).
    pose proof (Z.log2_spec _ Ha) as [Hlo Hhi].
    destruct (round_half_even_abs z ltac:(lia)) as [-> Hq].
    set (s := Z.log2 (Z.abs z) - 52) in *.
    set (q := Z.abs z / 2 ^ s) in *.
    set (r := Z.abs z mod 2 ^ s) in *.
    assert (0 < 2 ^ s) as HP by (apply Z.pow_pos_nonneg; lia).
    assert (Z.abs z = q * 2 ^ s + r ∧ 0 <= r < 2 ^ s) as [Hz Hr].
    { subst q r. split.
      - rewrite Z.mul_comm. apply Z.div_mod. lia.
      - apply Z.mod_pos_bound. lia. }
    set (up := (2 ^ (s - 1) <? r) || ((r =? 2 ^ (s - 1)) && Z.odd q)) in *.
    assert (Z.log2 ((if up then q + 1 else q) * 2 ^ s)
            = s + Z.log2 (if up then q + 1 else q)) as ->.
    { apply Z.log2_mul_pow2; [destruct up; lia|lia]. }
    destruct (Z_lt_le_dec (Z.log2 (Z.abs z)) 1023) as [H1|H1];
      [|destruct (Z_lt_le_dec 1023 (Z.log2 (Z.abs z))) as [H2|H2]].
    + (* below 2^1023 *)
      assert (Z.log2 (if up then q + 1 else q) <= 53) as Hb.
      { destruct up; [|rewrite log2_53_bits; lia].
        transitivity (Z.log2 (2 ^ 53)); [|rewrite Z.log2_pow2; lia].
        apply Z.log2_le_mono. lia. }
      assert (Z.abs z < 2 ^ 1023) as Hlt.
      { eapply Z.lt_le_trans; [exact Hhi|].
        apply Z.pow_le_mono_r; lia. }
      assert (2 ^ 1023 < 2 ^ 1024 - 2 ^ 970) by (vm_compute; reflexivity).
      split; [subst s; lia|lia].
    + (* from 2^1024 on *)
      assert (52 <= Z.log2 (if up then q + 1 else q)) as Hb.
      { destruct up; [|rewrite log2_53_bits; lia].
        transitivity (Z.log2 (2 ^ 52)); [rewrite Z.log2_pow2; lia|].
        apply Z.log2_le_mono. lia. }
      assert (2 ^ 1024 <= Z.abs z) as Hge.
      { eapply Z.le_trans; [|exact Hlo].
        apply Z.pow_le_mono_r; lia. }
      assert (0 < 2 ^ 970) by (vm_compute; reflexivity).
      split; [lia|subst s; lia].
    + (* between 2^1023 and 2^1024 *)
      assert (s = 971) as Hs by (subst s; lia).
      clearbody s q r. subst s.
      change (971 - 1) with 970 in up.
      assert (2 ^ 971 = 2 * 2 ^ 970) as E1 by (vm_compute; reflexivity).
      assert (2 ^ 1024 = 2 ^ 53 * 2 ^ 971) as E2 by (vm_compute; reflexivity).
      assert (0 < 2 ^ 970) as E3 by (vm_compute; reflexivity).
      destruct (decide (q = 2 ^ 53 - 1)) as [Hq1|Hq1].
      * assert (Z.odd q = true) as Hodd by (rewrite Hq1; reflexivity).
        subst up. rewrite Hodd, andb_true_r.
        destruct (2 ^ 970 <? r) eqn:C1; [|destruct (r =? 2 ^ 970) eqn:C2];
          cbn [orb].
        -- apply Z.ltb_lt in C1. rewrite Hq1.
           replace (2 ^ 53 - 1 + 1) with (2 ^ 53) by lia.
           rewrite Z.log2_pow2 by lia. split; [nia|lia].
        -- apply Z.eqb_eq in C2. rewrite Hq1.
           replace (2 ^ 53 - 1 + 1) with (2 ^ 53) by lia.
           rewrite Z.log2_pow2 by lia. split; [nia|lia].
        -- apply Z.ltb_ge in C1. apply Z.eqb_neq in C2.
           rewrite log2_53_bits by lia. split; [lia|nia].
      * assert (Z.log2 (if up then q + 1 else q) = 52) as ->
          by (apply log2_53_bits; destruct up; lia).
        split; [lia|]. nia.
Qed.

End Integers.

(** * The attributes *)

Section AttributesFurther.

Import Py Attributes.

Variable setEyesDistance setEyesAngle :
  FaceEyesNorm.t -> double -> FaceEyesNorm.t * option cxx_exception.
Variable setCropSize setCropOffset :
  FaceEyesNorm.t -> point -> FaceEyesNorm.t * option cxx_exception.

(** What [getCropSize] builds its integers of fits a double. *)
Lemma as_double_C_int z :
  as_double (PyLong (C_int z)) = Some (Double.of_Z (C_int z)).
Proof.
  apply PyLong_AsDouble_exact. unfold C_int.
  assert (0 < 2 ^ 32)%Z as H by done.
  pose proof (Z.mod_pos_bound (z + 2 ^ 31) (2 ^ 32) H). lia.
Qed.

(** X7: what a getter returns for an instance is taken by the setter of
    the same attribute, on that instance or on another: the C++ setter is
    called with the very value that was read, the crop size, read as two
    C [int]s, being handed over as the two doubles of these; the pairs
    read from [crop_offset] and [last_offset] both suit [crop_offset]. *)
Theorem attributes_round_trip self other :
  PyBobIpBaseFaceEyesNorm_setEyesDistance setEyesDistance self
    (PyBobIpBaseFaceEyesNorm_getEyesDistance other)
  = caught (setEyesDistance self (FaceEyesNorm.eyes_distance other))
  ∧ PyBobIpBaseFaceEyesNorm_setEyesAngle setEyesAngle self
      (PyBobIpBaseFaceEyesNorm_getEyesAngle other)
    = caught (setEyesAngle self (FaceEyesNorm.eyes_angle other))
  ∧ PyBobIpBaseFaceEyesNorm_setCropSize setCropSize self
      (PyBobIpBaseFaceEyesNorm_getCropSize other)
    = caught (setCropSize self
                (Double.of_Z (C_int (FaceEyesNorm.crop_size other).1),
                 Double.of_Z (C_int (FaceEyesNorm.crop_size other).2)))
  ∧ PyBobIpBaseFaceEyesNorm_setCropOffset setCropOffset self
      (PyBobIpBaseFaceEyesNorm_getCropOffset other)
    = caught (setCropOffset self (FaceEyesNorm.crop_offset other))
  ∧ PyBobIpBaseFaceEyesNorm_setCropOffset setCropOffset self
      (PyBobIpBaseFaceEyesNorm_getLastOffset other)
    = caught (setCropOffset self (FaceEyesNorm.last_offset other)).
Proof.
  unfold PyBobIpBaseFaceEyesNorm_setCropOffset,
    PyBobIpBaseFaceEyesNorm_getCropOffset,
    PyBobIpBaseFaceEyesNorm_getLastOffset,
    PyBobIpBaseFaceEyesNorm_setCropSize,
    PyBobIpBaseFaceEyesNorm_getCropSize.
  destruct (FaceEyesNorm.crop_offset other) as [y x] eqn:Ho,
           (FaceEyesNorm.last_offset other) as [y' x'] eqn:Hl.
  cbv zeta. unfold PyArg_ParseTuple_dd. rewrite !as_double_C_int.
  repeat split.
Qed.

Lemma PyArg_ParseTuple_dd_Some value p :
  PyArg_ParseTuple_dd value = Some p
  <-> ∃ a b, value = PyTuple [a; b]
             ∧ as_double a = Some p.1 ∧ as_double b = Some p.2.
Proof.
  split.
  - destruct value as [| | | | | |items| | |]; try discriminate.
    destruct items as [|a [|b [|]]]; try discriminate. simpl.
    destruct (as_double a) as [y|] eqn:Ha; [|discriminate].
    destruct (as_double b) as [x|] eqn:Hb; [|discriminate].
    intros [= <-]. by exists a, b.
  - intros (a & b & -> & Ha & Hb). simpl. rewrite Ha, Hb. by destruct p.
Qed.

(** X8: a setter refuses a value, leaving the instance as it was, exactly
    when the value does not convert.  [eyes_distance] and [eyes_angle]
    take a float, a boolean and an integer below [2^1024 - 2^970] in
    magnitude; from there on an integer overflows the doubles, and it is
    refused like a value that is no number (ndarrays apart, whose
    conversion is their own), with the error of [PyFloat_AsDouble].
    [crop_size] and [crop_offset] take a tuple of two such numbers and
    nothing else, and fail otherwise with a [RuntimeError]; a list of two
    numbers, which the constructor and [extract] take for a point, is
    refused. *)
Theorem setters_refuse self value :
  (is_array value = false ->
   (as_double value = None
    <-> match value with
        | PyFloat _ | PyBool _ => False
        | PyLong z => (2 ^ 1024 - 2 ^ 970 <= Z.abs z)%Z
        | _ => True
        end)
   ∧ (as_double value = None
      <-> PyBobIpBaseFaceEyesNorm_setEyesDistance setEyesDistance self value
          = (self, Some FloatError))
   ∧ (as_double value = None
      <-> PyBobIpBaseFaceEyesNorm_setEyesAngle setEyesAngle self value
          = (self, Some FloatError)))
  ∧ ((∀ a b, value = PyTuple [a; b] ->
             is_array a = false ∧ is_array b = false) ->
     ((¬ ∃ a b y x, value = PyTuple [a; b]
                    ∧ as_double a = Some y ∧ as_double b = Some x)
      <-> PyBobIpBaseFaceEyesNorm_setCropSize setCropSize self value
          = (self, Some (PyExc_RuntimeError "%s %s expects a tuple of two floats")))
     ∧ ((¬ ∃ a b y x, value = PyTuple [a; b]
                      ∧ as_double a = Some y ∧ as_double b = Some x)
        <-> PyBobIpBaseFaceEyesNorm_setCropOffset setCropOffset self value
            = (self, Some (PyExc_RuntimeError "%s %s expects a tuple of two floats"))))
  ∧ (∀ items,
       as_dd (PyList items) = as_dd (PyTuple items)
       ∧ PyBobIpBaseFaceEyesNorm_setCropOffset setCropOffset self (PyList items)
         = (self, Some (PyExc_RuntimeError "%s %s expects a tuple of two floats"))
       ∧ PyBobIpBaseFaceEyesNorm_setCropSize setCropSize self (PyList items)
         = (self, Some (PyExc_RuntimeError "%s %s expects a tuple of two floats"))).
Proof.
  assert (∀ r : FaceEyesNorm.t * option cxx_exception,
            ∀ err, (∀ e, err ≠ SetterCxxError e) ->
                   caught r ≠ (self, Some err)) as Hc.
  { intros [s [e|]] err Herr; unfold caught; simpl; intros [= _ H];
      by destruct (Herr e). }
  assert ((¬ ∃ a b y x, value = PyTuple [a; b]
                        ∧ as_double a = Some y ∧ as_double b = Some x)
          <-> PyArg_ParseTuple_dd value = None) as Hp.
  { split.
    - intros Hn. destruct (PyArg_ParseTuple_dd value) as [p|] eqn:E; [|done].
      apply PyArg_ParseTuple_dd_Some in E as (a & b & ? & ? & ?).
      destruct Hn. by exists a, b, p.1, p.2.
    - intros Hnone (a & b & y & x & -> & Ha & Hb).
      simpl in Hnone. by rewrite Ha, Hb in Hnone. }
  split; [|split].
  - intros _. split; [|split].
    + destruct value; try done.
      apply PyLong_AsDouble_overflow.
    + unfold PyBobIpBaseFaceEyesNorm_setEyesDistance.
      destruct (as_double value); split; try done.
      intros H. exfalso. eapply Hc; [|exact H]. done.
    + unfold PyBobIpBaseFaceEyesNorm_setEyesAngle.
      destruct (as_double value); split; try done.
      intros H. exfalso. eapply Hc; [|exact H]. done.
  - intros _. split.
    + rewrite Hp. unfold PyBobIpBaseFaceEyesNorm_setCropSize.
      destruct (PyArg_ParseTuple_dd value); split; try done.
      intros H. exfalso. eapply Hc; [|exact H]. done.
    + rewrite Hp. unfold PyBobIpBaseFaceEyesNorm_setCropOffset.
      destruct (PyArg_ParseTuple_dd value); split; try done.
      intros H. exfalso. eapply Hc; [|exact H]. done.
  - done.
Qed.

End AttributesFurther.

(** * Further properties of WeightedGaussian *)

Section SettersFurther.

Import WeightedGaussian.

(** X9: the setters compose as assignments do.  Setting both sigmas at
    once is setting one after the other, in either order, and likewise for
    the radii (given as sizes); a later value of a parameter replaces an
    earlier one; setters of different parameters, the border type among
    them, commute. *)
Theorem setters_compose self :
  (∀ sy sx,
     setSigma self (sy, sx) = setSigmaX (setSigmaY self sy) sx
     ∧ setSigma self (sy, sx) = setSigmaY (setSigmaX self sx) sy)
  ∧ (∀ ry rx,
       (0 <= ry < 2 ^ 64)%Z -> (0 <= rx < 2 ^ 64)%Z ->
       setRadius self (ry, rx) = setRadiusX (setRadiusY self ry) rx
       ∧ setRadius self (ry, rx) = setRadiusY (setRadiusX self rx) ry)
  ∧ (∀ a b,
       setSigmaY (setSigmaY self a) b = setSigmaY self b
       ∧ setSigmaX (setSigmaX self a) b = setSigmaX self b)
  ∧ (∀ a b, setSigma (setSigma self a) b = setSigma self b)
  ∧ (∀ a b,
       setRadiusY (setRadiusY self a) b = setRadiusY self b
       ∧ setRadiusX (setRadiusX self a) b = setRadiusX self b)
  ∧ (∀ r s,
       setRadiusY (setSigmaY self s) r = setSigmaY (setRadiusY self r) s
       ∧ setRadiusY (setSigmaX self s) r = setSigmaX (setRadiusY self r) s
       ∧ setRadiusX (setSigmaY self s) r = setSigmaY (setRadiusX self r) s
       ∧ setRadiusX (setSigmaX self s) r = setSigmaX (setRadiusX self r) s)
  ∧ (∀ b r s,
       setConvBorder (setRadiusY self r) b = setRadiusY (setConvBorder self b) r
       ∧ setConvBorder (setRadiusX self r) b = setRadiusX (setConvBorder self b) r
       ∧ setConvBorder (setSigmaY self s) b = setSigmaY (setConvBorder self b) s
       ∧ setConvBorder (setSigmaX self s) b = setSigmaX (setConvBorder self b) s).
Proof.
  repeat apply conj; try done.
  intros ry rx Hy Hx. unfold setRadius, to_size_t. simpl.
  by rewrite !Z.mod_small by done.
Qed.

(** X10: [setRadius] takes its two radii as C [int]s and refuses none: a
    radius that is not negative is stored as it is, a negative radius [r]
    is stored as the size [2^64 + r], and the kernel is computed from what
    is stored. *)
Theorem setRadius_wraps self (ry rx : Z) :
  (- 2 ^ 31 <= ry < 2 ^ 31)%Z ->
  (- 2 ^ 31 <= rx < 2 ^ 31)%Z ->
  getRadiusY (setRadius self (ry, rx))
  = (if bool_decide (ry < 0)%Z then 2 ^ 64 + ry else ry)%Z
  ∧ getRadiusX (setRadius self (ry, rx))
    = (if bool_decide (rx < 0)%Z then 2 ^ 64 + rx else rx)%Z
  ∧ (0 <= getRadiusY (setRadius self (ry, rx)) < 2 ^ 64)%Z
  ∧ (0 <= getRadiusX (setRadius self (ry, rx)) < 2 ^ 64)%Z
  ∧ kernel_up_to_date (setRadius self (ry, rx)).
Proof.
  intros Hy Hx.
  assert (∀ r, (- 2 ^ 31 <= r < 2 ^ 31)%Z ->
               (r mod 2 ^ 64 = if bool_decide (r < 0) then 2 ^ 64 + r else r)%Z)
    as Hmod.
  { intros r Hr. case_bool_decide.
    - symmetry. apply (Z.mod_unique_pos _ _ (-1)); lia.
    - apply Z.mod_small. lia. }
  split; [|split; [|split; [|split]]]; try done.
  - change (getRadiusY (setRadius self (ry, rx))) with (ry mod 2 ^ 64)%Z.
    by apply Hmod.
  - change (getRadiusX (setRadius self (ry, rx))) with (rx mod 2 ^ 64)%Z.
    by apply Hmod.
  - change (getRadiusY (setRadius self (ry, rx))) with (ry mod 2 ^ 64)%Z.
    apply Z.mod_pos_bound. lia.
  - change (getRadiusX (setRadius self (ry, rx))) with (rx mod 2 ^ 64)%Z.
    apply Z.mod_pos_bound. lia.
Qed.

(** [setRadius((-1, 1))] on the default filter. *)
Lemma setRadius_wraps_witness :
  getRadiusY (setRadius Samples.gaussian_default (-1, 1)%Z)
  = 18446744073709551615%Z
  ∧ getRadiusX (setRadius Samples.gaussian_default (-1, 1)%Z) = 1%Z.
Proof.
  destruct (setRadius_wraps Samples.gaussian_default (-1) 1)
    as (Hy & Hx & _); [lia|lia|].
  split; [exact Hy|exact Hx].
Defined.

End SettersFurther.

Section FilterFurther.

Import WeightedGaussian.

Context {T : Type}.
Variable cast : T -> double.
Variable filter_ :
  t -> Array2 double -> Array2 double -> t * Array2 double * option cxx_exception.

Local Abbreviation filter2 := (filter cast filter_).
Local Abbreviation each_plane := (filter_each_plane cast filter_).

Lemma filter3_each_plane self (src : Array3 T) (dst : Array3 double) :
  length src = length dst ->
  filter3 cast filter_ self src dst = each_plane self src dst.
Proof.
  intros Hlen. unfold filter3, assertSameDimensionLength.
  destruct (decide (length src = length dst)); [|done].
  rewrite (filter3_loop_planes cast filter_ (length dst) 0 self src dst)
    by done.
  rewrite !drop_0. simpl.
  by destruct (each_plane self src dst) as [[? ?] ?].
Qed.

(** Where the plane-by-plane filter stops when a 2D call throws. *)
Lemma filter_each_plane_thrown :
  ∀ (src : Array3 T) (dst out : Array3 double) self self' e,
  length src = length dst ->
  each_plane self src dst = (self', out, Some e) ->
  length out = length dst
  ∧ ∃ k s d w w' o,
      src !! k = Some s ∧ dst !! k = Some d
      ∧ filter2 w s d = (w', o, Some e) ∧ out !! k = Some o
      ∧ (∀ p, k < p -> out !! p = dst !! p)
      ∧ (∀ p s' d', p < k -> src !! p = Some s' -> dst !! p = Some d' ->
           ∃ v v' o', filter2 v s' d' = (v', o', None) ∧ out !! p = Some o').
Proof.
  induction src as [|s0 src IH]; intros [|d0 dst] out self self' e Hlen;
    simpl in *; try discriminate.
  destruct (filter2 self s0 d0) as [[w1 d1] [e1|]] eqn:Hf.
  - intros [= <- <- <-]. split; [done|].
    exists 0, s0, d0, self, w1, d1. repeat split; try done.
    + intros [|p] Hp; [lia|done].
    + intros p s' d' Hp. lia.
  - destruct (each_plane w1 src dst) as [[w2 out'] e2] eqn:He.
    intros [= <- <- ->].
    destruct (IH dst out' w1 w2 e ltac:(lia) He)
      as (Hl & k & s & d & w & w' & o & Hs & Hd & Hk & Ho & Hafter & Hbefore).
    split; [simpl; lia|].
    exists (S k), s, d, w, w', o. repeat split; try done.
    + intros [|p] Hp; [lia|]. simpl. apply Hafter. lia.
    + intros [|p] s' d' Hp; simpl.
      * intros [= <-] [= <-]. eauto.
      * apply Hbefore. lia.
Qed.

(** X11: when the 2D filter throws on some plane of a stack, the 3D filter
    passes the exception on at once: the planes before it have been
    written with their filtered results, the plane it failed on is as the
    failing call left it, and the planes after it are untouched.  The
    output keeps its number of planes. *)
Theorem filter3_stops_at_exception self (src : Array3 T) (dst out : Array3 double)
    self' e :
  length src = length dst ->
  filter3 cast filter_ self src dst = (self', out, Some e) ->
  length out = length dst
  ∧ ∃ k s d w w' o,
      src !! k = Some s ∧ dst !! k = Some d
      ∧ filter2 w s d = (w', o, Some e) ∧ out !! k = Some o
      ∧ (∀ p, k < p -> out !! p = dst !! p)
      ∧ (∀ p s' d', p < k -> src !! p = Some s' -> dst !! p = Some d' ->
           ∃ v v' o', filter2 v s' d' = (v', o', None) ∧ out !! p = Some o').
Proof.
  intros Hlen. rewrite filter3_each_plane by done.
  by apply filter_each_plane_thrown.
Qed.

End FilterFurther.

Section CastFurther.

Import WeightedGaussian.

Context {T : Type}.
Variable cast : T -> double.
Variable filter_ :
  t -> Array2 double -> Array2 double -> t * Array2 double * option cxx_exception.

Lemma filter_cast self (src : Array2 T) (dst : Array2 double) :
  filter cast filter_ self src dst
  = filter (λ x : double, x) filter_ self ((λ row : list T, cast <$> row) <$> src) dst.
Proof.
  unfold filter. f_equal.
  rewrite <- list_fmap_compose. apply list_fmap_ext. intros _ row _.
  simpl. symmetry. apply list_fmap_id.
Qed.

Lemma filter3_loop_cast n : ∀ p self (src : Array3 T) (dst : Array3 double),
  filter3_loop cast filter_ n p self src dst
  = filter3_loop (λ x : double, x) filter_ n p self
      ((λ plane : Array2 T, (λ row : list T, cast <$> row) <$> plane) <$> src)
      dst.
Proof.
  induction n as [|n IH]; intros p self src dst; [done|].
  simpl. rewrite list_lookup_fmap.
  assert (default [] ((λ plane : Array2 T,
                         (λ row : list T, cast <$> row) <$> plane)
                        <$> src !! p)
          = (λ row : list T, cast <$> row) <$> default [] (src !! p)) as ->
    by (by destruct (src !! p)).
  rewrite <- filter_cast.
  destruct (filter cast filter_ self _ _) as [[self' d'] [e|]]; [done|].
  apply IH.
Qed.

(** X12: the element type of the input matters to the filters through the
    cast alone: filtering an image or a stack of any element type is
    filtering, as an array of doubles, the image or the stack cast to
    double beforehand. *)
Theorem filter_casts_first self :
  (∀ (src : Array2 T) (dst : Array2 double),
     filter cast filter_ self src dst
     = filter (λ x : double, x) filter_ self ((λ row : list T, cast <$> row) <$> src) dst)
  ∧ (∀ (src : Array3 T) (dst : Array3 double),
       filter3 cast filter_ self src dst
       = filter3 (λ x : double, x) filter_ self
           ((λ plane : Array2 T, (λ row : list T, cast <$> row) <$> plane)
              <$> src) dst).
Proof.
  split; [apply filter_cast|].
  intros src dst. unfold filter3. rewrite length_fmap.
  destruct (assertSameDimensionLength _ _); [done|].
  apply filter3_loop_cast.
Qed.

End CastFurther.

Section FilterFurtherWitness.

Import WeightedGaussian.

(** A stack of three planes whose second plane has no rows, and a filter
    that refuses such a plane: the first plane is written, the third is
    not. *)
Lemma filter3_stops_at_exception_witness :
  filter3 Double.of_Z MoreSamples.refuse_empty Samples.gaussian_default
    [[[1]]; []; [[3]]]%Z [[[Double.zero]]; [[Double.zero]]; [[Double.zero]]]
  = (Samples.gaussian_default,
     [[[Double.of_Z 1]]; [[Double.zero]]; [[Double.zero]]],
     Some ShapeMismatchError)
  ∧ ∃ k, k < 3
         ∧ ∀ p, k < p ->
             [[[Double.of_Z 1]]; [[Double.zero]]; [[Double.zero]]] !! p
             = [[[Double.zero]]; [[Double.zero]]; [[Double.zero]]] !! p.
Proof.
  assert (filter3 Double.of_Z MoreSamples.refuse_empty Samples.gaussian_default
            [[[1]]; []; [[3]]]%Z
            [[[Double.zero]]; [[Double.zero]]; [[Double.zero]]]
          = (Samples.gaussian_default,
             [[[Double.of_Z 1]]; [[Double.zero]]; [[Double.zero]]],
             Some ShapeMismatchError)) as Hrun by reflexivity.
  split; [exact Hrun|].
  destruct (filter3_stops_at_exception Double.of_Z MoreSamples.refuse_empty
              Samples.gaussian_default [[[1]]; []; [[3]]]%Z
              [[[Double.zero]]; [[Double.zero]]; [[Double.zero]]]
              _ _ _ eq_refl Hrun)
    as (_ & k & s & d & w & w' & o & Hs & _ & _ & _ & Hafter & _).
  exists k. split; [|exact Hafter].
  apply lookup_lt_Some in Hs. exact Hs.
Defined.

End FilterFurtherWitness.

Section CopyConstruction.

Import Py Binding.

(** X13: a construction from one argument succeeds exactly when that
    argument, given by position or as [other], is a FaceEyesNorm, and the
    new instance then is its copy; another object, or another keyword, is
    refused by the parser. *)
Theorem init_copies get_item :
  (∀ o,
     PyBobIpBaseFaceEyesNorm_init get_item [PyFaceEyesNormObject o] ∅
     = inr (FaceEyesNorm.copy o)
     ∧ PyBobIpBaseFaceEyesNorm_init get_item []
         {["other" := PyFaceEyesNormObject o]}
       = inr (FaceEyesNorm.copy o))
  ∧ (∀ v,
       PyBobIpBaseFaceEyesNorm_Check v = false ->
       PyBobIpBaseFaceEyesNorm_init get_item [v] ∅ = inl ArgumentError
       ∧ PyBobIpBaseFaceEyesNorm_init get_item [] {["other" := v]}
         = inl ArgumentError)
  ∧ (∀ k v,
       k ≠ "other" ->
       PyBobIpBaseFaceEyesNorm_init get_item [] {[k := v]} = inl ArgumentError)
  ∧ (∀ args kwargs x,
       count_arguments args kwargs = 1 ->
       PyBobIpBaseFaceEyesNorm_init get_item args kwargs = inr x ->
       ∃ o, x = FaceEyesNorm.copy o
            ∧ (args = [PyFaceEyesNormObject o]
               ∨ kwargs !! "other" = Some (PyFaceEyesNormObject o))).
Proof.
  assert (∀ v : PyObject,
            bind_arguments kwlist_init3 [v] ∅ = Some [v]) as Hpos.
  { intros v. apply bind_arguments_positional. done. }
  assert (∀ v : PyObject,
            bind_arguments kwlist_init3 [] {["other" := v]} = Some [v]) as Hkw.
  { intros v. simpl. rewrite lookup_singleton_eq, delete_singleton. done. }
  assert (∀ (args : list PyObject) (kwargs : gmap string PyObject),
            args = [] ∧ (∃ k v, kwargs = {[k := v]})
            ∨ (∃ v, args = [v]) ∧ kwargs = ∅ ->
            count_arguments args kwargs = 1) as Hone.
  { intros args kwargs [[-> (k & v & ->)]|[[v ->] ->]]; unfold count_arguments.
    - by rewrite map_size_singleton.
    - by rewrite map_size_empty. }
  split; [|split; [|split]].
  - intros o. unfold PyBobIpBaseFaceEyesNorm_init.
    rewrite !Hone by eauto 6. by rewrite Hpos, Hkw.
  - intros v Hv. unfold PyBobIpBaseFaceEyesNorm_init.
    rewrite !Hone by eauto 6. rewrite Hpos, Hkw.
    by destruct v.
  - intros k v Hk. unfold PyBobIpBaseFaceEyesNorm_init.
    rewrite Hone by eauto 6. simpl.
    by rewrite lookup_singleton_ne.
  - intros args kwargs x Hn. unfold PyBobIpBaseFaceEyesNorm_init. rewrite Hn.
    destruct (bind_arguments kwlist_init3 args kwargs) as [l|] eqn:Hb;
      [|discriminate].
    destruct l as [|other [|]]; try discriminate.
    destruct (as_FaceEyesNorm other) as [o|] eqn:Ho; [|discriminate].
    intros [= <-]. exists o. split; [done|].
    destruct other; try discriminate. injection Ho as ->.
    simpl in Hb. destruct args as [|a [|]].
    + right. destruct (kwargs !! "other"); [|discriminate].
      destruct (decide _); [|discriminate]. by injection Hb as ->.
    + left. destruct (kwargs !! "other"); [discriminate|].
      destruct (decide _); [|discriminate]. by injection Hb as ->.
    + destruct (kwargs !! "other"); discriminate.
Qed.

End CopyConstruction.
